(** * Transaction risk scoring service (src/main.py)

    A shallow embedding of the scoring service: the pydantic feature
    model and its bounds, the [/score] handler with its try/except
    structure, the audit log, the Prometheus counter and gauge, the
    correlation-id middleware and the [/audit-logs] tail read.

    Python floats are IEEE binary64 values, embedded as Rocq's primitive
    floats; Python ints are [Z]; the label-indexed counter is a finite
    map; the module-level globals ([model], [audit_logs] and the metric
    objects) are the fields of one [State] record threaded through every
    handler. *)

From Stdlib Require Import ZArith Floats Lia.
From stdpp Require Import base option list strings pretty gmap.

Set Warnings "-inexact-float".

Local Open Scope Z_scope.

(** ** Python floats *)

Module PyFloat.

(** [a < b] and [a <= b] on Python floats are the IEEE comparisons:
    false as soon as one side is a NaN. *)
Definition lt (a b : float) : bool := PrimFloat.ltb a b.
Definition le (a b : float) : bool := PrimFloat.leb a b.
(** [a > b] and [a >= b] are the same comparisons with the sides swapped. *)
Definition gt (a b : float) : bool := PrimFloat.ltb b a.
Definition ge (a b : float) : bool := PrimFloat.leb b a.

(** Round-half-even of the non-negative rational [num / den]. *)
Definition round_half_even (num den : Z) : Z :=
  let q := num / den in
  let r := num mod den in
  match (2 * r ?= den) with
  | Lt => q
  | Gt => q + 1
  | Eq => if Z.even q then q else q + 1
  end.

(** The double nearest (ties to even) to the rational [n / d] with the
    sign [s], for [n, d > 0]: the quotient is computed exactly and
    rounded once, as a correctly rounded decimal-to-binary conversion
    does. *)
Definition nearest_double (s : bool) (n d : Z) : float :=
  let '(q, e, l) := SFdiv_core_binary prec emax n 0 d 0 in
  SF2Prim (binary_round_aux prec emax s q e l).

(** [round(x, ndigits)] for [0 <= ndigits] (the source uses 4 and 2).
    CPython rounds the exact binary value of [x] to [ndigits] decimals
    (ties to even), keeps the sign, and converts the decimal result
    back to the nearest double; NaN, the infinities and the zeros
    round to themselves. *)
Definition round (x : float) (ndigits : Z) : float :=
  match Prim2SF x with
  | S754_finite s m e =>
      let d := 10 ^ ndigits in
      let n := if 0 <=? e
               then round_half_even (Z.pos m * 2 ^ e * d) 1
               else round_half_even (Z.pos m * d) (2 ^ (- e)) in
      if n =? 0 then SF2Prim (S754_zero s) else nearest_double s n d
  | _ => x
  end.

End PyFloat.

(** ** The request and response schemas *)

(** A validated [TransactionFeatures] object. *)
Record TransactionFeatures := {
  transaction_amount_usd : float;
  sender_age_days : Z;
  transactions_last_24h : Z;
  avg_transaction_amount : float;
  sender_country_risk_score : float;
  is_new_recipient : bool;
  hour_of_day : Z
}.

Record RiskScoreRequest := {
  transaction_id : string;
  features : TransactionFeatures;
  customer_id : option string
}.

Record RiskScoreResponse := {
  resp_transaction_id : string;
  resp_risk_score : float;
  resp_risk_level : string;
  resp_recommendation : string;
  resp_model_version : string;
  resp_timestamp : string;
  resp_correlation_id : string;
  resp_features_hash : string;
  resp_processing_time_ms : float
}.

(** ** Validation of [TransactionFeatures]

    The input of the model is the JSON object of the request after
    pydantic's type coercion: every field present and of its declared
    type. What is embedded is what the source declares: the [Field]
    bounds and the [validate_amount] validator. *)

Module Validation.

Record FeaturesInput := {
  in_transaction_amount_usd : float;
  in_sender_age_days : Z;
  in_transactions_last_24h : Z;
  in_avg_transaction_amount : float;
  in_sender_country_risk_score : float;
  in_is_new_recipient : bool;
  in_hour_of_day : Z
}.

(** The constraint a rejected field violated: a [ge] or [le] bound of
    its [Field], or the [ValueError] message of its validator. *)
Inductive Constraint :=
| ge_bound (b : Z)
| le_bound (b : Z)
| validator_error (msg : string).

(** One entry of a pydantic [ValidationError]: the field and the
    constraint it violated. *)
Record FieldError := { loc : string; violated : Constraint }.

(** [transaction_amount_usd: float = Field(..., ge=0)], then
    [validate_amount]: the bound is checked first and the validator
    only runs on a value that passed it. *)
Definition validate_amount (v : float) : FieldError + float :=
  if PyFloat.gt v 1000000%float
  then inl {| loc := "transaction_amount_usd";
              violated := validator_error "Transaction amount exceeds maximum limit" |}
  else inr v.

Definition check_transaction_amount_usd (v : float) : FieldError + float :=
  if PyFloat.ge v 0%float then validate_amount v
  else inl {| loc := "transaction_amount_usd"; violated := ge_bound 0 |}.

(** [sender_age_days: int = Field(..., ge=0)] *)
Definition check_sender_age_days (v : Z) : FieldError + Z :=
  if 0 <=? v then inr v
  else inl {| loc := "sender_age_days"; violated := ge_bound 0 |}.

(** [transactions_last_24h: int = Field(..., ge=0, le=1000)] *)
Definition check_transactions_last_24h (v : Z) : FieldError + Z :=
  if 0 <=? v then
    if v <=? 1000 then inr v
    else inl {| loc := "transactions_last_24h"; violated := le_bound 1000 |}
  else inl {| loc := "transactions_last_24h"; violated := ge_bound 0 |}.

(** [avg_transaction_amount: float = Field(..., ge=0)] *)
Definition check_avg_transaction_amount (v : float) : FieldError + float :=
  if PyFloat.ge v 0%float then inr v
  else inl {| loc := "avg_transaction_amount"; violated := ge_bound 0 |}.

(** [sender_country_risk_score: float = Field(..., ge=0, le=1)] *)
Definition check_sender_country_risk_score (v : float) : FieldError + float :=
  if PyFloat.ge v 0%float then
    if PyFloat.le v 1%float then inr v
    else inl {| loc := "sender_country_risk_score"; violated := le_bound 1 |}
  else inl {| loc := "sender_country_risk_score"; violated := ge_bound 0 |}.

(** [hour_of_day: int = Field(..., ge=0, le=23)] *)
Definition check_hour_of_day (v : Z) : FieldError + Z :=
  if 0 <=? v then
    if v <=? 23 then inr v
    else inl {| loc := "hour_of_day"; violated := le_bound 23 |}
  else inl {| loc := "hour_of_day"; violated := ge_bound 0 |}.

Definition error_of {A} (r : FieldError + A) : list FieldError :=
  match r with inl e => [e] | inr _ => [] end.

(** Constructing the model: every field is checked, in declaration
    order; the object exists only when no field failed, otherwise the
    result is the list of the fields' errors. *)
Definition validate (raw : FeaturesInput) : list FieldError + TransactionFeatures :=
  let amount := check_transaction_amount_usd (in_transaction_amount_usd raw) in
  let age := check_sender_age_days (in_sender_age_days raw) in
  let freq := check_transactions_last_24h (in_transactions_last_24h raw) in
  let avg := check_avg_transaction_amount (in_avg_transaction_amount raw) in
  let country := check_sender_country_risk_score (in_sender_country_risk_score raw) in
  let hour := check_hour_of_day (in_hour_of_day raw) in
  match amount, age, freq, avg, country, hour with
  | inr a, inr g, inr f, inr v, inr c, inr h =>
      inr {| transaction_amount_usd := a;
             sender_age_days := g;
             transactions_last_24h := f;
             avg_transaction_amount := v;
             sender_country_risk_score := c;
             is_new_recipient := in_is_new_recipient raw;
             hour_of_day := h |}
  | _, _, _, _, _, _ =>
      inl (error_of amount ++ error_of age ++ error_of freq
           ++ error_of avg ++ error_of country ++ error_of hour)
  end.

(** The body of [POST /score] before validation. *)
Record RequestInput := {
  in_transaction_id : string;
  in_features : FeaturesInput;
  in_customer_id : option string
}.

Definition validate_request (raw : RequestInput) : list FieldError + RiskScoreRequest :=
  match validate (in_features raw) with
  | inl errs => inl errs
  | inr f => inr {| transaction_id := in_transaction_id raw;
                    features := f;
                    customer_id := in_customer_id raw |}
  end.

(** The same input with another amount, or another hour. *)
Definition set_amount (v : float) (raw : FeaturesInput) : FeaturesInput :=
  {| in_transaction_amount_usd := v;
     in_sender_age_days := in_sender_age_days raw;
     in_transactions_last_24h := in_transactions_last_24h raw;
     in_avg_transaction_amount := in_avg_transaction_amount raw;
     in_sender_country_risk_score := in_sender_country_risk_score raw;
     in_is_new_recipient := in_is_new_recipient raw;
     in_hour_of_day := in_hour_of_day raw |}.

Definition set_hour (h : Z) (raw : FeaturesInput) : FeaturesInput :=
  {| in_transaction_amount_usd := in_transaction_amount_usd raw;
     in_sender_age_days := in_sender_age_days raw;
     in_transactions_last_24h := in_transactions_last_24h raw;
     in_avg_transaction_amount := in_avg_transaction_amount raw;
     in_sender_country_risk_score := in_sender_country_risk_score raw;
     in_is_new_recipient := in_is_new_recipient raw;
     in_hour_of_day := h |}.

(** The errors the boundary cases are rejected with. *)
Definition amount_exceeds_maximum : FieldError :=
  {| loc := "transaction_amount_usd";
     violated := validator_error "Transaction amount exceeds maximum limit" |}.
Definition hour_above_23 : FieldError :=
  {| loc := "hour_of_day"; violated := le_bound 23 |}.
Definition hour_below_0 : FieldError :=
  {| loc := "hour_of_day"; violated := ge_bound 0 |}.

End Validation.

(** ** The service state and the [/score] handler *)

(** An entry of a numeric Python list: the feature vector mixes floats
    and ints before numpy converts it. *)
Inductive Number :=
| Float (x : float)
| Int (n : Z).

(** What the [except] clauses of the handler distinguish: a
    [ValueError], or any other [Exception]; both carry [str(e)]. *)
Inductive Raised :=
| ValueError (msg : string)
| OtherException (msg : string).

(** [float(model.predict_proba(np.array(v).reshape(1, -1))[0][1])] for a
    loaded model: the fraud probability, or the exception the call
    raised. The classifier is an external artifact. *)
Inductive Predicted :=
| proba (p : float)
| raises (e : Raised).

Definition Predictor : Type := list Number -> Predicted.

(** An entry of [audit_logs], as [create_audit_log] builds it. *)
Record AuditEntry := {
  audit_timestamp : string;
  audit_transaction_id : string;
  audit_customer_id : option string;
  audit_risk_score : float;
  audit_risk_level : string;
  audit_recommendation : string;
  audit_model_version : string;
  audit_environment : string;
  audit_correlation_id : string
}.

(** The labels of a [PREDICTION_COUNTER] child:
    [(model_version, risk_level, status)]. *)
Abbreviation Labels := (string * string * string)%type.

(** The module-level globals. [PREDICTION_LATENCY] is kept as the list of
    its observations, [HIGH_RISK_TRANSACTIONS] as the number the gauge
    holds, and [uuid_calls] counts the calls of [uuid.uuid4] so far. *)
Record State := {
  model : option Predictor;
  PREDICTION_COUNTER : gmap Labels nat;
  PREDICTION_LATENCY : list (string * float);
  HIGH_RISK_TRANSACTIONS : Z;
  audit_logs : list AuditEntry;
  uuid_calls : nat
}.

(** The clock readings of one [/score] call, in the order the handler
    takes them. *)
Record Clock := {
  start_time : float;
  predict_seconds : float;
  audit_utcnow : string;
  end_time : float;
  response_utcnow : string
}.

(** What a handler hands back to the framework. *)
Inductive Outcome (A : Type) :=
| returns (r : A)
| HTTPException (status_code : Z) (detail : string).
Arguments returns {A} r.
Arguments HTTPException {A} status_code detail.

(** [counter.labels(...).inc()] *)
Definition inc (k : Labels) (c : gmap Labels nat) : gmap Labels nat :=
  <[k := S (default 0%nat (c !! k))]> c.

(** The value of a child, 0 when it was never incremented. *)
Definition value (c : gmap Labels nat) (k : Labels) : nat := default 0%nat (c !! k).

(** The number of increments a counter received, over all its children. *)
Definition total (c : gmap Labels nat) : nat :=
  map_fold (fun _ v acc => (v + acc)%nat) 0%nat c.

(** Python's [l[i:]]: a negative index counts from the end, and either
    one is clamped to the list. *)
Definition slice_from {A} (i : Z) (l : list A) : list A :=
  let n := Z.of_nat (length l) in
  let start := if i <? 0 then Z.max (i + n) 0 else Z.min i n in
  drop (Z.to_nat start) l.

(** Truthiness of an [Optional[str]]: [None] and the empty string are
    falsy. *)
Definition truthy (o : option string) : option string :=
  match o with
  | Some EmptyString => None
  | Some c => Some c
  | None => None
  end.

Module Service.
Section Deployment.

(** [os.getenv("MODEL_VERSION", ...)] and [os.getenv("ENVIRONMENT", ...)],
    read once at import. *)
Variable MODEL_VERSION : string.
Variable ENVIRONMENT : string.
(** [time.time()] at import. *)
Variable SERVICE_START_TIME : float.
(** [hashlib.sha256(s.encode()).hexdigest()] *)
Variable sha256_hexdigest : string -> string.
(** [repr] of a float (the shortest string that reads back as it). *)
Variable repr_float : float -> string.
(** The token the [n]-th call of [str(uuid.uuid4())] returns. *)
Variable uuid4 : nat -> string.

Definition repr_bool (b : bool) : string := if b then "True" else "False".

(** [str(request.features.dict())]: the fields in declaration order. *)
Definition str_features_dict (f : TransactionFeatures) : string :=
  "{'transaction_amount_usd': " +:+ repr_float (transaction_amount_usd f)
  +:+ ", 'sender_age_days': " +:+ pretty (sender_age_days f)
  +:+ ", 'transactions_last_24h': " +:+ pretty (transactions_last_24h f)
  +:+ ", 'avg_transaction_amount': " +:+ repr_float (avg_transaction_amount f)
  +:+ ", 'sender_country_risk_score': " +:+ repr_float (sender_country_risk_score f)
  +:+ ", 'is_new_recipient': " +:+ repr_bool (is_new_recipient f)
  +:+ ", 'hour_of_day': " +:+ pretty (hour_of_day f) +:+ "}".

(** The list handed to [np.array]. *)
Definition feature_vector (f : TransactionFeatures) : list Number :=
  [ Float (transaction_amount_usd f);
    Int (sender_age_days f);
    Int (transactions_last_24h f);
    Float (avg_transaction_amount f);
    Float (sender_country_risk_score f);
    Int (if is_new_recipient f then 1 else 0);
    Int (hour_of_day f) ].

Definition features_hash_of (f : TransactionFeatures) : string :=
  sha256_hexdigest (str_features_dict f).

(** The [if]/[elif] chain on [risk_score]. *)
Definition risk_policy (risk_score : float) : string * string :=
  if PyFloat.lt risk_score 0.3%float then ("LOW", "APPROVE")
  else if PyFloat.lt risk_score 0.6%float then ("MEDIUM", "REVIEW")
  else if PyFloat.lt risk_score 0.8%float then ("HIGH", "REVIEW")
  else ("CRITICAL", "REJECT").

(** [risk_level in ["HIGH", "CRITICAL"]] *)
Definition is_high_risk (risk_level : string) : bool :=
  bool_decide (risk_level = "HIGH") || bool_decide (risk_level = "CRITICAL").

(** *** State updates *)

Definition inc_PREDICTION_COUNTER (risk_level status : string) (s : State) : State :=
  {| model := model s;
     PREDICTION_COUNTER := inc (MODEL_VERSION, risk_level, status) (PREDICTION_COUNTER s);
     PREDICTION_LATENCY := PREDICTION_LATENCY s;
     HIGH_RISK_TRANSACTIONS := HIGH_RISK_TRANSACTIONS s;
     audit_logs := audit_logs s;
     uuid_calls := uuid_calls s |}.

(** Leaving the [with PREDICTION_LATENCY...time()] block, normally or
    by an exception, records the time spent in it. *)
Definition observe_PREDICTION_LATENCY (seconds : float) (s : State) : State :=
  {| model := model s;
     PREDICTION_COUNTER := PREDICTION_COUNTER s;
     PREDICTION_LATENCY := PREDICTION_LATENCY s ++ [(MODEL_VERSION, seconds)];
     HIGH_RISK_TRANSACTIONS := HIGH_RISK_TRANSACTIONS s;
     audit_logs := audit_logs s;
     uuid_calls := uuid_calls s |}.

Definition inc_HIGH_RISK_TRANSACTIONS (s : State) : State :=
  {| model := model s;
     PREDICTION_COUNTER := PREDICTION_COUNTER s;
     PREDICTION_LATENCY := PREDICTION_LATENCY s;
     HIGH_RISK_TRANSACTIONS := HIGH_RISK_TRANSACTIONS s + 1;
     audit_logs := audit_logs s;
     uuid_calls := uuid_calls s |}.

(** [str(uuid.uuid4())] *)
Definition new_uuid (s : State) : string * State :=
  (uuid4 (uuid_calls s),
   {| model := model s;
      PREDICTION_COUNTER := PREDICTION_COUNTER s;
      PREDICTION_LATENCY := PREDICTION_LATENCY s;
      HIGH_RISK_TRANSACTIONS := HIGH_RISK_TRANSACTIONS s;
      audit_logs := audit_logs s;
      uuid_calls := S (uuid_calls s) |}).

Definition create_audit_log (utcnow : string)
    (transaction_id : string) (risk_score : float)
    (risk_level recommendation correlation_id : string)
    (customer_id : option string) (s : State) : State :=
  let audit_entry :=
    {| audit_timestamp := utcnow;
       audit_transaction_id := transaction_id;
       audit_customer_id := customer_id;
       audit_risk_score := risk_score;
       audit_risk_level := risk_level;
       audit_recommendation := recommendation;
       audit_model_version := MODEL_VERSION;
       audit_environment := ENVIRONMENT;
       audit_correlation_id := correlation_id |} in
  {| model := model s;
     PREDICTION_COUNTER := PREDICTION_COUNTER s;
     PREDICTION_LATENCY := PREDICTION_LATENCY s;
     HIGH_RISK_TRANSACTIONS := HIGH_RISK_TRANSACTIONS s;
     audit_logs := audit_logs s ++ [audit_entry];
     uuid_calls := uuid_calls s |}.

(** [load_model], run by [lifespan] before the first request: [loaded]
    is the unpickled file, [None] when opening or unpickling it raised
    (the exception is re-raised and the application does not start). *)
Definition load_model (loaded : option Predictor) (s : State) : option State :=
  match loaded with
  | Some m => Some {| model := Some m;
                      PREDICTION_COUNTER := PREDICTION_COUNTER s;
                      PREDICTION_LATENCY := PREDICTION_LATENCY s;
                      HIGH_RISK_TRANSACTIONS := HIGH_RISK_TRANSACTIONS s;
                      audit_logs := audit_logs s;
                      uuid_calls := uuid_calls s |}
  | None => None
  end.

(** The globals right after import. *)
Definition initial_state : State :=
  {| model := None;
     PREDICTION_COUNTER := ∅;
     PREDICTION_LATENCY := [];
     HIGH_RISK_TRANSACTIONS := 0;
     audit_logs := [];
     uuid_calls := 0 |}.

(** *** [score_transaction] *)

(** The body of the [try] block, for a loaded model [m]: the state it
    leaves behind and either the response it returns or the exception
    that escaped it. Only the prediction can raise. *)
Definition try_block (clk : Clock) (m : Predictor) (request : RiskScoreRequest)
    (correlation_id : string) (s : State) : State * (Raised + RiskScoreResponse) :=
  let features_dict := features request in
  let features_hash := features_hash_of features_dict in
  let s := observe_PREDICTION_LATENCY (predict_seconds clk) s in
  match m (feature_vector features_dict) with
  | raises e => (s, inl e)
  | proba risk_score =>
      let '(risk_level, recommendation) := risk_policy risk_score in
      let processing_time_ms := ((end_time clk - start_time clk) * 1000)%float in
      let s := inc_PREDICTION_COUNTER risk_level "success" s in
      let s := if is_high_risk risk_level then inc_HIGH_RISK_TRANSACTIONS s else s in
      let s := create_audit_log (audit_utcnow clk) (transaction_id request)
                 risk_score risk_level recommendation correlation_id
                 (customer_id request) s in
      (s, inr {| resp_transaction_id := transaction_id request;
                 resp_risk_score := PyFloat.round risk_score 4;
                 resp_risk_level := risk_level;
                 resp_recommendation := recommendation;
                 resp_model_version := MODEL_VERSION;
                 resp_timestamp := response_utcnow clk;
                 resp_correlation_id := correlation_id;
                 resp_features_hash := features_hash;
                 resp_processing_time_ms := PyFloat.round processing_time_ms 2 |})
  end.

Definition score_transaction (clk : Clock) (request : RiskScoreRequest)
    (x_correlation_id : option string) (s : State)
    : State * Outcome RiskScoreResponse :=
  (* correlation_id = x_correlation_id or str(uuid.uuid4()) *)
  let '(correlation_id, s) :=
    match truthy x_correlation_id with
    | Some c => (c, s)
    | None => new_uuid s
    end in
  match model s with
  | None =>
      (inc_PREDICTION_COUNTER "ERROR" "error" s,
       HTTPException 503 "Model not loaded")
  | Some m =>
      match try_block clk m request correlation_id s with
      | (s, inr response) => (s, returns response)
      | (s, inl (ValueError msg)) =>
          (inc_PREDICTION_COUNTER "ERROR" "validation_error" s,
           HTTPException 400 ("Invalid input: " +:+ msg))
      | (s, inl (OtherException _)) =>
          (inc_PREDICTION_COUNTER "ERROR" "error" s,
           HTTPException 500 "Internal server error")
      end
  end.

(** *** The other handlers *)

Record HealthResponse := {
  status : string;
  model_loaded : bool;
  model_version : string;
  environment : string;
  uptime_seconds : float
}.

Definition health_check (now : float) (s : State) : HealthResponse :=
  {| status := "healthy";
     model_loaded := bool_decide (is_Some (model s));
     model_version := MODEL_VERSION;
     environment := ENVIRONMENT;
     uptime_seconds := (now - SERVICE_START_TIME)%float |}.

Definition readiness_check (now : float) (s : State) : Outcome HealthResponse :=
  match model s with
  | None => HTTPException 503 "Model not loaded"
  | Some _ =>
      returns {| status := "ready";
                 model_loaded := true;
                 model_version := MODEL_VERSION;
                 environment := ENVIRONMENT;
                 uptime_seconds := (now - SERVICE_START_TIME)%float |}
  end.

(** [{"total": len(audit_logs), "logs": audit_logs[-limit:]}] *)
Definition get_audit_logs (limit : Z) (s : State) : nat * list AuditEntry :=
  (length (audit_logs s), slice_from (- limit) (audit_logs s)).

(** *** The application: routing, request validation, middleware *)

Inductive Request :=
| POST_score (clk : Clock) (body : Validation.RequestInput)
| GET_audit_logs (limit : option Z)
| GET_health (now : float)
| GET_ready (now : float)
| GET_metrics
| GET_root.

(** The content of a response. [/metrics] exposes the registry
    (its text format is the client library's); [/] is a constant. *)
Inductive Content :=
| score_json (r : RiskScoreResponse)
| detail_json (detail : string)
| validation_json (errs : list Validation.FieldError)
| audit_json (total : nat) (logs : list AuditEntry)
| health_json (h : HealthResponse)
| metrics_text (counter : gmap Labels nat) (latency : list (string * float)) (gauge : Z)
| root_json.

Record Response := {
  status_code : Z;
  content : Content;
  X_Correlation_ID : string
}.

Definition of_outcome {A} (json : A -> Content) (o : Outcome A) : Z * Content :=
  match o with
  | returns r => (200, json r)
  | HTTPException code detail => (code, detail_json detail)
  end.

(** The route of a request. The framework builds the handler's
    arguments first: a body that fails [RiskScoreRequest] validation is
    answered with 422 and the handler is not called; [limit] defaults
    to 100. *)
Definition route (req : Request) (x_correlation_id : option string) (s : State)
    : State * (Z * Content) :=
  match req with
  | POST_score clk body =>
      match Validation.validate_request body with
      | inl errs => (s, (422, validation_json errs))
      | inr request =>
          let '(s, o) := score_transaction clk request x_correlation_id s in
          (s, of_outcome score_json o)
      end
  | GET_audit_logs limit =>
      let '(n, logs) := get_audit_logs (default 100 limit) s in
      (s, (200, audit_json n logs))
  | GET_health now => (s, (200, health_json (health_check now s)))
  | GET_ready now => (s, of_outcome health_json (readiness_check now s))
  | GET_metrics =>
      (s, (200, metrics_text (PREDICTION_COUNTER s) (PREDICTION_LATENCY s)
                  (HIGH_RISK_TRANSACTIONS s)))
  | GET_root => (s, (200, root_json))
  end.

(** The [add_correlation_id] middleware around every route. The
    default of [headers.get] is an argument, so [uuid.uuid4()] is
    called whether or not the header is there. *)
Definition add_correlation_id (req : Request) (x_correlation_id : option string)
    (s : State) : State * Response :=
  let '(fresh, s) := new_uuid s in
  let correlation_id := default fresh x_correlation_id in
  let '(s, (code, body)) := route req x_correlation_id s in
  (s, {| status_code := code; content := body; X_Correlation_ID := correlation_id |}).

(** The service handling a sequence of requests, each with its
    [X-Correlation-ID] header if any. *)
Fixpoint serve (reqs : list (Request * option string)) (s : State)
    : State * list Response :=
  match reqs with
  | [] => (s, [])
  | (req, hdr) :: rest =>
      let '(s, r) := add_correlation_id req hdr s in
      let '(s, rs) := serve rest s in
      (s, r :: rs)
  end.

(** *** Observations on responses *)



(** A response that carries a score, and one that carries a score of
    the given risk level. *)
Definition scored (r : Response) : bool :=
  match content r with
  | score_json _ => true
  | _ => false
  end.

Definition scored_at (risk_level : string) (r : Response) : bool :=
  match content r with
  | score_json resp => bool_decide (resp_risk_level resp = risk_level)
  | _ => false
  end.

(** A request that reaches [score_transaction]: a [POST /score] whose
    body passes validation. *)
Definition reaches_handler (req : Request * option string) : bool :=
  match fst req with
  | POST_score _ body =>
      match Validation.validate_request body with
      | inr _ => true
      | inl _ => false
      end
  | _ => false
  end.

(** The risk levels from the lowest to the highest. *)
Definition severity (risk_level : string) : nat :=
  if bool_decide (risk_level = "LOW") then 0
  else if bool_decide (risk_level = "MEDIUM") then 1
  else if bool_decide (risk_level = "HIGH") then 2
  else 3.

End Deployment.
End Service.

(** ** Concrete inputs

    A deployment, a clock and the requests at which the properties
    below are instantiated. The digest, the float printer and the token
    source are external; any function stands for them here. *)

Module Demo.

Definition MODEL_VERSION : string := "v1.0.0".
Definition ENVIRONMENT : string := "production".
Definition digest (s : string) : string := "sha256:" +:+ s.
Definition repr_float (x : float) : string := "<float>".
Definition uuid4 (n : nat) : string := "uuid-" +:+ pretty n.

Definition clock : Clock :=
  {| start_time := 100%float;
     predict_seconds := 0.004%float;
     audit_utcnow := "2024-01-01T00:00:00.005000";
     end_time := 100.005%float;
     response_utcnow := "2024-01-01T00:00:00.006000" |}.

(** The features of the end-to-end scenario. *)
Definition features_input : Validation.FeaturesInput :=
  {| Validation.in_transaction_amount_usd := 50000%float;
     Validation.in_sender_age_days := 2;
     Validation.in_transactions_last_24h := 15;
     Validation.in_avg_transaction_amount := 200%float;
     Validation.in_sender_country_risk_score := 0.9%float;
     Validation.in_is_new_recipient := true;
     Validation.in_hour_of_day := 3 |}.

Definition valid_features : TransactionFeatures :=
  {| transaction_amount_usd := 50000%float;
     sender_age_days := 2;
     transactions_last_24h := 15;
     avg_transaction_amount := 200%float;
     sender_country_risk_score := 0.9%float;
     is_new_recipient := true;
     hour_of_day := 3 |}.

Definition request : RiskScoreRequest :=
  {| transaction_id := "T1"; features := valid_features; customer_id := None |}.

Definition body (f : Validation.FeaturesInput) : Validation.RequestInput :=
  {| Validation.in_transaction_id := "T1";
     Validation.in_features := f;
     Validation.in_customer_id := None |}.

(** The same features with another hour. *)
Definition at_hour (h : Z) : Validation.FeaturesInput :=
  {| Validation.in_transaction_amount_usd := 50000%float;
     Validation.in_sender_age_days := 2;
     Validation.in_transactions_last_24h := 15;
     Validation.in_avg_transaction_amount := 200%float;
     Validation.in_sender_country_risk_score := 0.9%float;
     Validation.in_is_new_recipient := true;
     Validation.in_hour_of_day := h |}.

(** Another request on the same features, at another time. *)
Definition later_request : RiskScoreRequest :=
  {| transaction_id := "T2"; features := valid_features; customer_id := Some "cust-9" |}.


(** A state whose model answers [r] on every vector. *)
Definition loaded (r : Predicted) : State :=
  {| model := Some (fun _ => r);
     PREDICTION_COUNTER := ∅;
     PREDICTION_LATENCY := [];
     HIGH_RISK_TRANSACTIONS := 0;
     audit_logs := [];
     uuid_calls := 0 |}.

Definition entry (n : string) : AuditEntry :=
  {| audit_timestamp := "2024-01-01T00:00:00";
     audit_transaction_id := n;
     audit_customer_id := None;
     audit_risk_score := 0.1%float;
     audit_risk_level := "LOW";
     audit_recommendation := "APPROVE";
     audit_model_version := MODEL_VERSION;
     audit_environment := ENVIRONMENT;
     audit_correlation_id := "c" |}.

(** A state with the given audit log. *)
Definition logged (l : list AuditEntry) : State :=
  {| model := None;
     PREDICTION_COUNTER := ∅;
     PREDICTION_LATENCY := [];
     HIGH_RISK_TRANSACTIONS := 0;
     audit_logs := l;
     uuid_calls := 0 |}.

End Demo.

(** ** Properties *)

(** *** Comparisons of floats *)

Lemma SFcompare_antisym (x y : spec_float) :
  SFcompare y x = match SFcompare x y with
                  | Some c => Some (CompOpp c)
                  | None => None
                  end.
Proof.
  destruct x as [sx | sx | | sx mx ex], y as [sy | sy | | sy my ey];
    try reflexivity; simpl;
    try (destruct sx; reflexivity); try (destruct sy; reflexivity);
    try (destruct sx, sy; reflexivity).
  change (PosDef.Pos.compare_cont Eq mx my) with (Pos.compare mx my).
  change (PosDef.Pos.compare_cont Eq my mx) with (Pos.compare my mx).
  rewrite (Z.compare_antisym ex ey), (Pos.compare_antisym mx my).
  destruct sx, sy; try reflexivity;
    destruct (Z.compare ex ey); simpl; try reflexivity;
    destruct (Pos.compare mx my); reflexivity.
Qed.

(** [a <= b] excludes [b < a]: what makes an [elif] bucket's lower edge
    inclusive. *)
Lemma le_not_lt (a b : float) :
  PyFloat.le a b = true -> PyFloat.lt b a = false.
Proof.
  unfold PyFloat.le, PyFloat.lt. rewrite leb_spec, ltb_spec.
  unfold SFleb, SFltb. rewrite (SFcompare_antisym (Prim2SF a) (Prim2SF b)).
  destruct (SFcompare (Prim2SF a) (Prim2SF b)) as [[ | | ] | ]; simpl; congruence.
Qed.

(** [<] on floats is transitive. *)
Lemma SFltb_trans (x y z : spec_float) :
  SFltb x y = true -> SFltb y z = true -> SFltb x z = true.
Proof.
  unfold SFltb.
  destruct x as [sx | sx | | sx mx ex], y as [sy | sy | | sy my ey],
           z as [sz | sz | | sz mz ez]; simpl;
    try discriminate; try (destruct sx; discriminate);
    try (destruct sy; discriminate); try (destruct sz; discriminate);
    try (destruct sx, sy; discriminate); try (destruct sy, sz; discriminate);
    try (destruct sx, sz; discriminate);
    try (destruct sx, sy, sz; simpl; congruence).
  change (PosDef.Pos.compare_cont Eq mx my) with (Pos.compare mx my).
  change (PosDef.Pos.compare_cont Eq my mz) with (Pos.compare my mz).
  change (PosDef.Pos.compare_cont Eq mx mz) with (Pos.compare mx mz).
  destruct sx, sy, sz; simpl; try congruence;
    destruct (Z.compare_spec ex ey), (Z.compare_spec ey ez), (Z.compare_spec ex ez);
    simpl; try congruence; try lia;
    destruct (Pos.compare_spec mx my), (Pos.compare_spec my mz),
             (Pos.compare_spec mx mz); simpl; try congruence; lia.
Qed.

Lemma lt_trans (a b c : float) :
  PyFloat.lt a b = true -> PyFloat.lt b c = true -> PyFloat.lt a c = true.
Proof. unfold PyFloat.lt. rewrite !ltb_spec. apply SFltb_trans. Qed.

(** A value at or above [c] is not below any [b] under [c]. *)
Lemma ge_not_lt_below (p b c : float) :
  PyFloat.lt b c = true -> PyFloat.le c p = true -> PyFloat.lt p b = false.
Proof.
  intros Hbc Hcp. destruct (PyFloat.lt p b) eqn:Hpb; [|reflexivity].
  pose proof (lt_trans p b c Hpb Hbc) as Hpc.
  rewrite (le_not_lt c p Hcp) in Hpc. discriminate.
Qed.

(** *** Validation *)

Section ValidationProperties.

Import Validation.

(** A rejection carries at least one error. *)
Lemma validate_rejects_with_error raw errs :
  validate raw = inl errs -> errs <> [].
Proof.
  unfold validate.
  destruct (check_transaction_amount_usd _), (check_sender_age_days _),
    (check_transactions_last_24h _), (check_avg_transaction_amount _),
    (check_sender_country_risk_score _), (check_hour_of_day _);
    simpl; intros [= <-]; discriminate.
Qed.

(** An accepted input passed every field's check. *)
Lemma validate_accepts_inv raw f :
  validate raw = inr f ->
  exists a g q v c h,
    check_transaction_amount_usd (in_transaction_amount_usd raw) = inr a
    /\ check_sender_age_days (in_sender_age_days raw) = inr g
    /\ check_transactions_last_24h (in_transactions_last_24h raw) = inr q
    /\ check_avg_transaction_amount (in_avg_transaction_amount raw) = inr v
    /\ check_sender_country_risk_score (in_sender_country_risk_score raw) = inr c
    /\ check_hour_of_day (in_hour_of_day raw) = inr h.
Proof.
  unfold validate.
  destruct (check_transaction_amount_usd _), (check_sender_age_days _),
    (check_transactions_last_24h _), (check_avg_transaction_amount _),
    (check_sender_country_risk_score _), (check_hour_of_day _);
    simpl; try discriminate.
  intros _. eauto 12.
Qed.

(** C2. The amount ceiling is inclusive and the hour ranges over 0..23:
    whatever the other fields, an amount of 1_000_001 is rejected with the
    validator's error and the hours 24 and -1 with the violated bound of
    [hour_of_day]; on an input that is otherwise valid, the amount
    1_000_000 and the hours 0 and 23 are accepted. A rejection is a
    non-empty list of field errors, not a [TransactionFeatures]. *)
Theorem validation_boundaries (raw : FeaturesInput) :
  (exists rest,
     validate (set_amount 1000001%float raw) = inl (amount_exceeds_maximum :: rest))
  /\ (exists before,
       validate (set_hour 24 raw) = inl (before ++ [hour_above_23]))
  /\ (exists before,
       validate (set_hour (-1) raw) = inl (before ++ [hour_below_0]))
  /\ (forall f, validate raw = inr f ->
       (exists f', validate (set_amount 1000000%float raw) = inr f'
                   /\ transaction_amount_usd f' = 1000000%float)
       /\ (exists f', validate (set_hour 0 raw) = inr f' /\ hour_of_day f' = 0)
       /\ (exists f', validate (set_hour 23 raw) = inr f' /\ hour_of_day f' = 23))
  /\ (forall errs, validate raw = inl errs ->
       errs <> [] /\ forall f, validate raw <> inr f).
Proof.
  split; [|split; [|split; [|split]]].
  - unfold validate, set_amount; simpl.
    change (check_transaction_amount_usd 1000001%float)
      with (@inl FieldError float amount_exceeds_maximum).
    eexists. reflexivity.
  - unfold validate, set_hour; simpl.
    change (check_hour_of_day 24) with (@inl FieldError Z hour_above_23).
    destruct (check_transaction_amount_usd _), (check_sender_age_days _),
      (check_transactions_last_24h _), (check_avg_transaction_amount _),
      (check_sender_country_risk_score _);
      rewrite !app_assoc; eexists; reflexivity.
  - unfold validate, set_hour; simpl.
    change (check_hour_of_day (-1)) with (@inl FieldError Z hour_below_0).
    destruct (check_transaction_amount_usd _), (check_sender_age_days _),
      (check_transactions_last_24h _), (check_avg_transaction_amount _),
      (check_sender_country_risk_score _);
      rewrite !app_assoc; eexists; reflexivity.
  - intros f Hf.
    destruct (validate_accepts_inv raw f Hf)
      as (a & g & q & v & c & h & Ha & Hg & Hq & Hv & Hc & Hh).
    repeat split.
    + unfold validate, set_amount; simpl. rewrite Hg, Hq, Hv, Hc, Hh.
      change (check_transaction_amount_usd 1000000%float)
        with (@inr FieldError float 1000000%float).
      eexists. split; reflexivity.
    + unfold validate, set_hour; simpl. rewrite Ha, Hg, Hq, Hv, Hc.
      change (check_hour_of_day 0) with (@inr FieldError Z 0).
      eexists. split; reflexivity.
    + unfold validate, set_hour; simpl. rewrite Ha, Hg, Hq, Hv, Hc.
      change (check_hour_of_day 23) with (@inr FieldError Z 23).
      eexists. split; reflexivity.
  - intros errs He. split.
    + exact (validate_rejects_with_error raw errs He).
    + intros f Hf. rewrite He in Hf. discriminate.
Qed.

(** The boundaries on the features of the end-to-end scenario. *)
Lemma validation_boundaries_witness :
  (exists f', validate (set_amount 1000000%float Demo.features_input) = inr f'
              /\ transaction_amount_usd f' = 1000000%float)
  /\ validate (set_amount 1000001%float Demo.features_input)
     = inl [amount_exceeds_maximum]
  /\ validate (set_hour 24 Demo.features_input) = inl [hour_above_23].
Proof.
  split; [|split].
  - exact (proj1 (proj1 (proj2 (proj2 (proj2
             (validation_boundaries Demo.features_input))))
             Demo.valid_features eq_refl)).
  - reflexivity.
  - reflexivity.
Defined.

End ValidationProperties.

(** *** The handler on a loaded model *)

Section Properties.

Context (MODEL_VERSION ENVIRONMENT : string)
        (SERVICE_START_TIME : float)
        (sha256_hexdigest : string -> string)
        (repr_float : float -> string)
        (uuid4 : nat -> string).

Let score_transaction :=
  Service.score_transaction MODEL_VERSION ENVIRONMENT sha256_hexdigest repr_float uuid4.
Let add_correlation_id :=
  Service.add_correlation_id MODEL_VERSION ENVIRONMENT SERVICE_START_TIME
    sha256_hexdigest repr_float uuid4.
Let serve :=
  Service.serve MODEL_VERSION ENVIRONMENT SERVICE_START_TIME
    sha256_hexdigest repr_float uuid4.

(** The correlation id the handler works with. *)
Lemma handler_correlation_id (hdr : option string) (s : State) :
  exists cid s0,
    match truthy hdr with
    | Some c => (c, s)
    | None => Service.new_uuid uuid4 s
    end = (cid, s0)
    /\ cid = default (uuid4 (uuid_calls s)) (truthy hdr)
    /\ model s0 = model s
    /\ PREDICTION_COUNTER s0 = PREDICTION_COUNTER s
    /\ HIGH_RISK_TRANSACTIONS s0 = HIGH_RISK_TRANSACTIONS s
    /\ audit_logs s0 = audit_logs s.
Proof.
  destruct (truthy hdr) as [c|]; simpl; eauto 10.
Qed.

(** The success path, spelled out: what a call returns and what it
    leaves in the globals when the model answers with a probability. *)
Lemma score_transaction_proba clk request hdr s m p :
  model s = Some m ->
  m (Service.feature_vector (features request)) = proba p ->
  exists s' r,
    score_transaction clk request hdr s = (s', returns r)
    /\ (resp_risk_level r, resp_recommendation r) = Service.risk_policy p
    /\ resp_risk_score r = PyFloat.round p 4
    /\ resp_features_hash r
       = Service.features_hash_of sha256_hexdigest repr_float (features request)
    /\ resp_correlation_id r = default (uuid4 (uuid_calls s)) (truthy hdr)
    /\ PREDICTION_COUNTER s'
       = inc (MODEL_VERSION, resp_risk_level r, "success") (PREDICTION_COUNTER s)
    /\ HIGH_RISK_TRANSACTIONS s'
       = HIGH_RISK_TRANSACTIONS s
         + (if Service.is_high_risk (resp_risk_level r) then 1 else 0)
    /\ exists e,
         audit_logs s' = audit_logs s ++ [e]
         /\ audit_risk_score e = p
         /\ audit_risk_level e = resp_risk_level r
         /\ audit_recommendation e = resp_recommendation r
         /\ audit_transaction_id e = transaction_id request
         /\ audit_correlation_id e = resp_correlation_id r.
Proof.
  intros Hmodel Hm.
  unfold score_transaction, Service.score_transaction.
  destruct (handler_correlation_id hdr s)
    as (cid & s0 & -> & Hcid & Hm0 & Hc0 & Hg0 & Ha0).
  rewrite Hm0, Hmodel. unfold Service.try_block. simpl. rewrite Hm.
  destruct (Service.risk_policy p) as [level rec] eqn:Hpol.
  eexists _, _. split; [reflexivity|]. simpl.
  repeat split; try assumption.
  - rewrite <- Hc0. destruct (Service.is_high_risk level); reflexivity.
  - rewrite <- Hg0. destruct (Service.is_high_risk level); simpl; lia.
  - eexists. rewrite <- Ha0.
    split; [destruct (Service.is_high_risk level); reflexivity|].
    simpl. auto.
Qed.


Lemma score_transaction_raises clk request hdr s m e :
  model s = Some m ->
  m (Service.feature_vector (features request)) = raises e ->
  exists s',
    score_transaction clk request hdr s
    = (s', match e with
           | ValueError msg => HTTPException 400 ("Invalid input: " +:+ msg)
           | OtherException _ => HTTPException 500 "Internal server error"
           end)
    /\ PREDICTION_COUNTER s'
       = inc (MODEL_VERSION, "ERROR",
              match e with
              | ValueError _ => "validation_error"
              | OtherException _ => "error"
              end) (PREDICTION_COUNTER s)
    /\ HIGH_RISK_TRANSACTIONS s' = HIGH_RISK_TRANSACTIONS s
    /\ audit_logs s' = audit_logs s.
Proof.
  intros Hmodel Hm.
  unfold score_transaction, Service.score_transaction.
  destruct (handler_correlation_id hdr s)
    as (cid & s0 & -> & Hcid & Hm0 & Hc0 & Hg0 & Ha0).
  rewrite Hm0, Hmodel. unfold Service.try_block. simpl. rewrite Hm.
  destruct e as [msg | msg]; eexists; (split; [reflexivity|]); simpl;
    rewrite Hc0; auto.
Qed.

(** *** The threshold table *)

(** C1. For a loaded model that answers a probability [p] on the
    request's feature vector, with [0 <= p <= 1], the call succeeds and
    its risk level and recommendation follow the threshold table:
    [p < 0.3] gives LOW/APPROVE, [0.3 <= p < 0.6] MEDIUM/REVIEW,
    [0.6 <= p < 0.8] HIGH/REVIEW and [0.8 <= p] CRITICAL/REJECT; the
    boundary values 0.3, 0.6 and 0.8 fall in the upper bucket. *)
Theorem score_follows_threshold_table clk request hdr s m p :
  model s = Some m ->
  m (Service.feature_vector (features request)) = proba p ->
  PyFloat.le 0%float p = true ->
  PyFloat.le p 1%float = true ->
  exists s' r,
    score_transaction clk request hdr s = (s', returns r)
    /\ (PyFloat.lt p 0.3%float = true ->
        resp_risk_level r = "LOW" /\ resp_recommendation r = "APPROVE")
    /\ (PyFloat.le 0.3%float p = true -> PyFloat.lt p 0.6%float = true ->
        resp_risk_level r = "MEDIUM" /\ resp_recommendation r = "REVIEW")
    /\ (PyFloat.le 0.6%float p = true -> PyFloat.lt p 0.8%float = true ->
        resp_risk_level r = "HIGH" /\ resp_recommendation r = "REVIEW")
    /\ (PyFloat.le 0.8%float p = true ->
        resp_risk_level r = "CRITICAL" /\ resp_recommendation r = "REJECT")
    /\ (p = 0.3%float -> resp_risk_level r = "MEDIUM")
    /\ (p = 0.6%float -> resp_risk_level r = "HIGH")
    /\ (p = 0.8%float -> resp_risk_level r = "CRITICAL").
Proof.
  intros Hmodel Hm _ _.
  destruct (score_transaction_proba clk request hdr s m p Hmodel Hm)
    as (s' & r & Hrun & Hpol & _).
  exists s', r. split; [exact Hrun|].
  unfold Service.risk_policy in Hpol.
  assert (Hlow : PyFloat.lt p 0.3%float = true ->
                 resp_risk_level r = "LOW" /\ resp_recommendation r = "APPROVE").
  { intros H. rewrite H in Hpol. now inversion Hpol. }
  assert (Hmed : PyFloat.le 0.3%float p = true -> PyFloat.lt p 0.6%float = true ->
                 resp_risk_level r = "MEDIUM" /\ resp_recommendation r = "REVIEW").
  { intros H1 H2. rewrite (le_not_lt _ _ H1), H2 in Hpol. now inversion Hpol. }
  assert (Hhigh : PyFloat.le 0.6%float p = true -> PyFloat.lt p 0.8%float = true ->
                  resp_risk_level r = "HIGH" /\ resp_recommendation r = "REVIEW").
  { intros H1 H2.
    rewrite (ge_not_lt_below p 0.3%float 0.6%float eq_refl H1) in Hpol.
    rewrite (le_not_lt _ _ H1), H2 in Hpol. now inversion Hpol. }
  assert (Hcrit : PyFloat.le 0.8%float p = true ->
                  resp_risk_level r = "CRITICAL" /\ resp_recommendation r = "REJECT").
  { intros H1.
    rewrite (ge_not_lt_below p 0.3%float 0.8%float eq_refl H1) in Hpol.
    rewrite (ge_not_lt_below p 0.6%float 0.8%float eq_refl H1) in Hpol.
    rewrite (le_not_lt _ _ H1) in Hpol. now inversion Hpol. }
  repeat split; try tauto.
  - intros ->. now apply Hmed.
  - intros ->. now apply Hhigh.
  - intros ->. now apply Hcrit.
Qed.

(** *** Counters *)

Lemma value_inc_eq (k : Labels) (c : gmap Labels nat) :
  value (inc k c) k = S (value c k).
Proof. unfold value, inc. now rewrite lookup_insert_eq. Qed.

Lemma value_inc_ne (k k' : Labels) (c : gmap Labels nat) :
  k <> k' -> value (inc k c) k' = value c k'.
Proof. intros Hne. unfold value, inc. now rewrite lookup_insert_ne. Qed.

(** An increment of any child adds one to the counter's total. *)
Lemma total_inc (k : Labels) (c : gmap Labels nat) :
  total (inc k c) = S (total c).
Proof.
  assert (Hcomm : forall z1 z2 y : nat, (z1 + (z2 + y) = z2 + (z1 + y))%nat)
    by (intros; lia).
  unfold total, inc. destruct (c !! k) as [v|] eqn:Hk; simpl.
  - rewrite <- insert_delete_eq.
    rewrite map_fold_insert_L; [|intros; apply Hcomm|apply lookup_delete_eq].
    rewrite (map_fold_delete_L _ 0%nat k v c); [lia|intros; apply Hcomm|exact Hk].
  - rewrite map_fold_insert_L; [lia|intros; apply Hcomm|exact Hk].
Qed.

(** *** Failures of the predictor *)

(** C3, as amended. A failure raised by the predictor that is not a
    [ValueError] surfaces as the opaque 500 "Internal server error" and
    increments the counter with status=error, leaving the
    status=validation_error child alone; a [ValueError] raised by the
    predictor is caught by the [except ValueError] clause: it surfaces as
    a 400 "Invalid input" and increments status=validation_error. *)
Theorem predictor_failure_by_exception_class clk request hdr s m e :
  model s = Some m ->
  m (Service.feature_vector (features request)) = raises e ->
  exists s' o,
    score_transaction clk request hdr s = (s', o)
    /\ (forall msg, e = OtherException msg ->
        o = HTTPException 500 "Internal server error"
        /\ value (PREDICTION_COUNTER s') (MODEL_VERSION, "ERROR", "error")
           = S (value (PREDICTION_COUNTER s) (MODEL_VERSION, "ERROR", "error"))
        /\ value (PREDICTION_COUNTER s') (MODEL_VERSION, "ERROR", "validation_error")
           = value (PREDICTION_COUNTER s) (MODEL_VERSION, "ERROR", "validation_error"))
    /\ (forall msg, e = ValueError msg ->
        o = HTTPException 400 ("Invalid input: " +:+ msg)
        /\ value (PREDICTION_COUNTER s') (MODEL_VERSION, "ERROR", "validation_error")
           = S (value (PREDICTION_COUNTER s) (MODEL_VERSION, "ERROR", "validation_error"))
        /\ value (PREDICTION_COUNTER s') (MODEL_VERSION, "ERROR", "error")
           = value (PREDICTION_COUNTER s) (MODEL_VERSION, "ERROR", "error")).
Proof.
  intros Hmodel Hm.
  destruct (score_transaction_raises clk request hdr s m e Hmodel Hm)
    as (s' & Hrun & Hc & _).
  eexists s', _. split; [exact Hrun|].
  split; intros msg ->; rewrite Hc;
    (split; [reflexivity|]); split;
    solve [apply value_inc_eq | apply value_inc_ne; congruence].
Qed.

(** *** One counter update, and an audit entry exactly on success *)


(** *** Requests that fail validation *)

(** C5, on the code. A [POST /score] whose features fail validation is
    answered by the framework with the field errors before
    [score_transaction] is called: no audit entry is appended, and no
    counter is incremented either, not even status=validation_error. *)
Theorem invalid_features_touch_no_counter clk body hdr s errs :
  Validation.validate (Validation.in_features body) = inl errs ->
  exists s' r,
    add_correlation_id (Service.POST_score clk body) hdr s = (s', r)
    /\ Service.status_code r = 422
    /\ Service.content r = Service.validation_json errs
    /\ audit_logs s' = audit_logs s
    /\ PREDICTION_COUNTER s' = PREDICTION_COUNTER s.
Proof.
  intros Hv.
  unfold add_correlation_id, Service.add_correlation_id. simpl.
  unfold Validation.validate_request. rewrite Hv. simpl.
  eexists _, _. repeat split; reflexivity.
Qed.

(** *** The features hash *)




(** *** The audit tail *)

Lemma slice_from_last {A} (limit : Z) (l : list A) :
  1 <= limit ->
  slice_from (- limit) l = drop (length l - Z.to_nat limit) l.
Proof.
  intros Hlimit. unfold slice_from.
  destruct (Z.ltb_spec (- limit) 0) as [_|]; [|lia].
  f_equal. lia.
Qed.

(** C7, as amended. For a limit of at least 1, the tail read returns the
    last [min limit (length audit_logs)] entries, oldest first: at most
    [limit] of them, and the log is some older entries followed by
    exactly these. With limit 2 on a log that ends with five appended
    entries it returns the last two. *)
Theorem audit_tail_of_positive_limit :
  (forall (limit : Z) (s : State),
     1 <= limit ->
     let logs := snd (Service.get_audit_logs limit s) in
     length logs = Nat.min (Z.to_nat limit) (length (audit_logs s))
     /\ Z.of_nat (length logs) <= limit
     /\ exists older, audit_logs s = older ++ logs)
  /\ (forall (s : State) older a b c d e,
        audit_logs s = older ++ [a; b; c; d; e] ->
        snd (Service.get_audit_logs 2 s) = [d; e]).
Proof.
  split.
  - intros limit s Hlimit. simpl.
    rewrite (slice_from_last limit (audit_logs s) Hlimit).
    rewrite length_drop. repeat split; try lia.
    exists (take (length (audit_logs s) - Z.to_nat limit) (audit_logs s)).
    now rewrite take_drop.
  - intros s older a b c d e Hlog. simpl.
    rewrite (slice_from_last 2 (audit_logs s)) by lia.
    rewrite Hlog, length_app. simpl.
    replace (length older + 5 - Z.to_nat 2)%nat with (length older + 3)%nat by lia.
    rewrite drop_app_add. reflexivity.
Qed.

(** *** The high-risk gauge *)



(** *** The correlation id *)

(** A non-empty [X-Correlation-ID] header is the id of the response
    body, of the audit entry and of the response header. *)
Lemma supplied_correlation_id_is_used clk body request c s m p :
  Validation.validate_request body = inr request ->
  model s = Some m ->
  m (Service.feature_vector (features request)) = proba p ->
  c <> EmptyString ->
  exists s' resp r e,
    add_correlation_id (Service.POST_score clk body) (Some c) s = (s', resp)
    /\ Service.content resp = Service.score_json r
    /\ Service.X_Correlation_ID resp = c
    /\ resp_correlation_id r = c
    /\ audit_logs s' = audit_logs s ++ [e]
    /\ audit_correlation_id e = c.
Proof.
  intros Hvalid Hmodel Hm Hc.
  unfold add_correlation_id, Service.add_correlation_id. simpl. rewrite Hvalid.
  match goal with
  | |- context [Service.score_transaction _ _ _ _ _ clk request (Some c) ?s1] =>
      destruct (score_transaction_proba clk request (Some c) s1 m p Hmodel Hm)
        as (s' & r & Hrun & _ & _ & _ & Hcid & _ & _ & e & Ha & _ & _ & _ & _ & He)
  end.
  unfold score_transaction in Hrun. rewrite Hrun. simpl.
  assert (Hr : resp_correlation_id r = c).
  { rewrite Hcid. destruct c; [congruence | reflexivity]. }
  eexists s', _, r, e. split; [reflexivity|]. simpl in *.
  repeat split; try assumption; congruence.
Qed.

(** C9, on the code. Without an [X-Correlation-ID] header the middleware
    and the handler each call [uuid.uuid4()]: the response header carries
    the first token, the response body and the audit entry carry the
    second, and the two differ whenever the generator does not repeat
    itself. *)
Theorem absent_correlation_id_yields_two_tokens clk body request s m p :
  Validation.validate_request body = inr request ->
  model s = Some m ->
  m (Service.feature_vector (features request)) = proba p ->
  uuid4 (uuid_calls s) <> uuid4 (S (uuid_calls s)) ->
  exists s' resp r e,
    add_correlation_id (Service.POST_score clk body) None s = (s', resp)
    /\ Service.content resp = Service.score_json r
    /\ Service.X_Correlation_ID resp = uuid4 (uuid_calls s)
    /\ resp_correlation_id r = uuid4 (S (uuid_calls s))
    /\ audit_logs s' = audit_logs s ++ [e]
    /\ audit_correlation_id e = uuid4 (S (uuid_calls s))
    /\ Service.X_Correlation_ID resp <> resp_correlation_id r.
Proof.
  intros Hvalid Hmodel Hm Hfresh.
  unfold add_correlation_id, Service.add_correlation_id. simpl. rewrite Hvalid.
  match goal with
  | |- context [Service.score_transaction _ _ _ _ _ clk request None ?s1] =>
      destruct (score_transaction_proba clk request None s1 m p Hmodel Hm)
        as (s' & r & Hrun & _ & _ & _ & Hcid & _ & _ & e & Ha & _ & _ & _ & _ & He)
  end.
  unfold score_transaction in Hrun. rewrite Hrun. simpl in *.
  eexists s', _, r, e. split; [reflexivity|]. simpl.
  repeat split; try assumption; congruence.
Qed.

(** *** The audited score and the returned score *)



End Properties.

(** The end-to-end scenario: the request T1 against a predictor that
    answers 0.85, sent with a correlation header. *)
Example end_to_end_scenario :
  let '(s', resp) :=
    Service.add_correlation_id Demo.MODEL_VERSION Demo.ENVIRONMENT 0%float
      Demo.digest Demo.repr_float Demo.uuid4
      (Service.POST_score Demo.clock (Demo.body Demo.features_input))
      (Some "req-1") (Demo.loaded (proba 0.85%float)) in
  Service.status_code resp = 200
  /\ Service.X_Correlation_ID resp = "req-1"
  /\ match Service.content resp with
     | Service.score_json r =>
         resp_risk_level r = "CRITICAL"
         /\ resp_recommendation r = "REJECT"
         /\ resp_risk_score r = 0.85%float
         /\ resp_correlation_id r = "req-1"
         /\ resp_processing_time_ms r = 5%float
     | _ => False
     end
  /\ length (audit_logs s') = 1%nat
  /\ HIGH_RISK_TRANSACTIONS s' = 1
  /\ value (PREDICTION_COUNTER s') (Demo.MODEL_VERSION, "CRITICAL", "success") = 1%nat.
Proof. vm_compute. repeat split. Qed.

(** The table applied at the boundary 0.3. *)
Lemma score_follows_threshold_table_witness :
  exists s' r,
    Service.score_transaction Demo.MODEL_VERSION Demo.ENVIRONMENT Demo.digest
      Demo.repr_float Demo.uuid4 Demo.clock Demo.request None
      (Demo.loaded (proba 0.3%float)) = (s', returns r)
    /\ resp_risk_level r = "MEDIUM".
Proof.
  destruct (score_follows_threshold_table Demo.MODEL_VERSION Demo.ENVIRONMENT
              Demo.digest Demo.repr_float Demo.uuid4 Demo.clock Demo.request None
              (Demo.loaded (proba 0.3%float)) (fun _ => proba 0.3%float) 0.3%float
              eq_refl eq_refl eq_refl eq_refl)
    as (s' & r & Hrun & _ & _ & _ & _ & Hb & _).
  exists s', r. split; [exact Hrun | exact (Hb eq_refl)].
Defined.

(** A [ValueError] raised by the predictor, an other exception, and what
    each surfaces as. *)
Lemma predictor_failure_by_exception_class_witness :
  exists s' o,
    Service.score_transaction Demo.MODEL_VERSION Demo.ENVIRONMENT Demo.digest
      Demo.repr_float Demo.uuid4 Demo.clock Demo.request None
      (Demo.loaded (raises (OtherException "tree is corrupt"))) = (s', o)
    /\ o = HTTPException 500 "Internal server error".
Proof.
  destruct (predictor_failure_by_exception_class Demo.MODEL_VERSION Demo.ENVIRONMENT
              Demo.digest Demo.repr_float Demo.uuid4 Demo.clock Demo.request None
              (Demo.loaded (raises (OtherException "tree is corrupt")))
              (fun _ => raises (OtherException "tree is corrupt"))
              (OtherException "tree is corrupt") eq_refl eq_refl)
    as (s' & o & Hrun & Hother & _).
  exists s', o. split; [exact Hrun | exact (proj1 (Hother _ eq_refl))].
Defined.

(** C3 as stated fails: a [ValueError] from the predictor is answered
    with 400 and counted under status=validation_error, not under
    status=error. *)
Lemma predictor_value_error_is_not_internal_error :
  let '(s', o) :=
    Service.score_transaction Demo.MODEL_VERSION Demo.ENVIRONMENT Demo.digest
      Demo.repr_float Demo.uuid4 Demo.clock Demo.request None
      (Demo.loaded (raises (ValueError "Input contains NaN"))) in
  o = HTTPException 400 "Invalid input: Input contains NaN"
  /\ o <> HTTPException 500 "Internal server error"
  /\ value (PREDICTION_COUNTER s') (Demo.MODEL_VERSION, "ERROR", "validation_error") = 1%nat
  /\ value (PREDICTION_COUNTER s') (Demo.MODEL_VERSION, "ERROR", "error") = 0%nat.
Proof.
  vm_compute. repeat split; congruence.
Qed.

(** The hour 24 on the scenario's features: rejected, nothing counted. *)
Lemma invalid_features_touch_no_counter_witness :
  exists s' r,
    Service.add_correlation_id Demo.MODEL_VERSION Demo.ENVIRONMENT 0%float
      Demo.digest Demo.repr_float Demo.uuid4
      (Service.POST_score Demo.clock (Demo.body (Demo.at_hour 24))) None
      (Demo.loaded (proba 0.85%float)) = (s', r)
    /\ Service.status_code r = 422
    /\ Service.content r = Service.validation_json [Validation.hour_above_23]
    /\ audit_logs s' = []
    /\ PREDICTION_COUNTER s' = ∅.
Proof.
  exact (invalid_features_touch_no_counter Demo.MODEL_VERSION Demo.ENVIRONMENT
           0%float Demo.digest Demo.repr_float Demo.uuid4 Demo.clock
           (Demo.body (Demo.at_hour 24)) None (Demo.loaded (proba 0.85%float))
           [Validation.hour_above_23] eq_refl).
Defined.


(** The tail of a five-entry log with limit 2. *)
Lemma audit_tail_of_positive_limit_witness :
  length (snd (Service.get_audit_logs 2
                 (Demo.logged [Demo.entry "T1"; Demo.entry "T2"; Demo.entry "T3";
                               Demo.entry "T4"; Demo.entry "T5"]))) = 2%nat
  /\ snd (Service.get_audit_logs 2
            (Demo.logged [Demo.entry "T1"; Demo.entry "T2"; Demo.entry "T3";
                          Demo.entry "T4"; Demo.entry "T5"]))
     = [Demo.entry "T4"; Demo.entry "T5"].
Proof.
  split.
  - exact (proj1 (proj1 audit_tail_of_positive_limit 2
                    (Demo.logged [Demo.entry "T1"; Demo.entry "T2"; Demo.entry "T3";
                                  Demo.entry "T4"; Demo.entry "T5"])
                    ltac:(lia))).
  - exact (proj2 audit_tail_of_positive_limit
             (Demo.logged [Demo.entry "T1"; Demo.entry "T2"; Demo.entry "T3";
                           Demo.entry "T4"; Demo.entry "T5"])
             [] _ _ _ _ _ eq_refl).
Defined.

(** C7 as stated fails: with limit 0 the tail read returns the whole
    log, and with limit -1 all entries but the first; both are longer
    than the limit. *)
Lemma audit_tail_exceeds_nonpositive_limit :
  snd (Service.get_audit_logs 0
         (Demo.logged [Demo.entry "T1"; Demo.entry "T2"; Demo.entry "T3"]))
  = [Demo.entry "T1"; Demo.entry "T2"; Demo.entry "T3"]
  /\ snd (Service.get_audit_logs (-1)
            (Demo.logged [Demo.entry "T1"; Demo.entry "T2"; Demo.entry "T3"]))
     = [Demo.entry "T2"; Demo.entry "T3"]
  /\ ~ (Z.of_nat (length (snd (Service.get_audit_logs 0
          (Demo.logged [Demo.entry "T1"; Demo.entry "T2"; Demo.entry "T3"])))) <= 0)
  /\ ~ (Z.of_nat (length (snd (Service.get_audit_logs (-1)
          (Demo.logged [Demo.entry "T1"; Demo.entry "T2"; Demo.entry "T3"])))) <= -1).
Proof.
  repeat split; try reflexivity; vm_compute; congruence.
Qed.

(** A scoring without the header: the header of the response and its
    body disagree on the correlation id. *)
Lemma absent_correlation_id_yields_two_tokens_witness :
  exists s' resp r,
    Service.add_correlation_id Demo.MODEL_VERSION Demo.ENVIRONMENT 0%float
      Demo.digest Demo.repr_float Demo.uuid4
      (Service.POST_score Demo.clock (Demo.body Demo.features_input)) None
      (Demo.loaded (proba 0.85%float)) = (s', resp)
    /\ Service.content resp = Service.score_json r
    /\ Service.X_Correlation_ID resp = "uuid-0"
    /\ resp_correlation_id r = "uuid-1".
Proof.
  destruct (absent_correlation_id_yields_two_tokens Demo.MODEL_VERSION
              Demo.ENVIRONMENT 0%float Demo.digest Demo.repr_float Demo.uuid4
              Demo.clock (Demo.body Demo.features_input) Demo.request
              (Demo.loaded (proba 0.85%float)) (fun _ => proba 0.85%float)
              0.85%float eq_refl eq_refl eq_refl ltac:(discriminate))
    as (s' & resp & r & e & Hrun & Hcontent & Hheader & Hbody & _).
  exists s', resp, r. repeat split; assumption.
Defined.



(** ** Further properties of the validation *)

(** *** More on float comparisons *)

Lemma SFcompare_None (x y : spec_float) :
  SFcompare x y = None -> x = S754_nan \/ y = S754_nan.
Proof.
  destruct x, y; simpl; try discriminate; auto.
Qed.

Lemma SFcompare_nan_r (x : spec_float) : SFcompare x S754_nan = None.
Proof. destruct x; reflexivity. Qed.

(** Whatever compares [<=] with something is not a NaN. *)
Lemma le_not_nan_r (a x : float) :
  PyFloat.le a x = true -> Prim2SF x <> S754_nan.
Proof.
  unfold PyFloat.le. rewrite leb_spec. unfold SFleb. intros H Hnan.
  rewrite Hnan, SFcompare_nan_r in H. discriminate.
Qed.

Lemma le_not_nan_l (x b : float) :
  PyFloat.le x b = true -> Prim2SF x <> S754_nan.
Proof.
  unfold PyFloat.le. rewrite leb_spec. unfold SFleb. intros H Hnan.
  rewrite Hnan in H. discriminate.
Qed.

Lemma SFcompare_refl (x : spec_float) :
  x <> S754_nan -> SFcompare x x = Some Eq.
Proof.
  destruct x as [s | s | | s m e]; simpl; intros Hx;
    try reflexivity; try congruence.
  - destruct s; reflexivity.
  - change (PosDef.Pos.compare_cont Eq m m) with (Pos.compare m m).
    rewrite (Z.compare_refl e), (Pos.compare_refl m). destruct s; reflexivity.
Qed.

(** A float that is not a NaN equals itself and is not [is_nan]. *)
Lemma not_nan_is_nan (x : float) :
  Prim2SF x <> S754_nan -> PrimFloat.is_nan x = false.
Proof.
  intros Hx. unfold PrimFloat.is_nan. rewrite FloatAxioms.eqb_spec. unfold SFeqb.
  now rewrite (SFcompare_refl _ Hx).
Qed.

(** On two floats that are not NaN, [not (b < a)] is [a <= b]. *)
Lemma not_lt_le (a b : float) :
  Prim2SF a <> S754_nan -> Prim2SF b <> S754_nan ->
  PyFloat.lt b a = false -> PyFloat.le a b = true.
Proof.
  intros Ha Hb. unfold PyFloat.lt, PyFloat.le. rewrite ltb_spec, leb_spec.
  unfold SFltb, SFleb. rewrite (SFcompare_antisym (Prim2SF a) (Prim2SF b)).
  destruct (SFcompare (Prim2SF a) (Prim2SF b)) as [[ | | ] | ] eqn:Hc;
    simpl; try congruence.
  destruct (SFcompare_None _ _ Hc); congruence.
Qed.

Lemma SFleb_ltb_trans (x y z : spec_float) :
  SFleb x y = true -> SFltb y z = true -> SFltb x z = true.
Proof.
  unfold SFleb, SFltb.
  destruct x as [sx | sx | | sx mx ex], y as [sy | sy | | sy my ey],
           z as [sz | sz | | sz mz ez]; simpl;
    try discriminate; try (destruct sx; discriminate);
    try (destruct sy; discriminate); try (destruct sz; discriminate);
    try (destruct sx, sy; discriminate); try (destruct sy, sz; discriminate);
    try (destruct sx, sz; discriminate);
    try (destruct sx, sy, sz; simpl; congruence).
  change (PosDef.Pos.compare_cont Eq mx my) with (Pos.compare mx my).
  change (PosDef.Pos.compare_cont Eq my mz) with (Pos.compare my mz).
  change (PosDef.Pos.compare_cont Eq mx mz) with (Pos.compare mx mz).
  destruct sx, sy, sz; simpl; try congruence;
    destruct (Z.compare_spec ex ey), (Z.compare_spec ey ez), (Z.compare_spec ex ez);
    simpl; try congruence; try lia;
    destruct (Pos.compare_spec mx my), (Pos.compare_spec my mz),
             (Pos.compare_spec mx mz); simpl; try congruence; lia.
Qed.

Lemma le_lt_trans (a b c : float) :
  PyFloat.le a b = true -> PyFloat.lt b c = true -> PyFloat.lt a c = true.
Proof.
  unfold PyFloat.le, PyFloat.lt. rewrite leb_spec, !ltb_spec.
  apply SFleb_ltb_trans.
Qed.

(** *** What an accepted and a rejected input look like *)

Section ValidationBounds.

Import Validation.

(** The conditions the six checks test, on an accepted input, and the
    object that is built. *)
Lemma validate_inr_inv raw f :
  validate raw = inr f ->
  f = {| transaction_amount_usd := in_transaction_amount_usd raw;
         sender_age_days := in_sender_age_days raw;
         transactions_last_24h := in_transactions_last_24h raw;
         avg_transaction_amount := in_avg_transaction_amount raw;
         sender_country_risk_score := in_sender_country_risk_score raw;
         is_new_recipient := in_is_new_recipient raw;
         hour_of_day := in_hour_of_day raw |}
  /\ PyFloat.ge (in_transaction_amount_usd raw) 0%float = true
  /\ PyFloat.gt (in_transaction_amount_usd raw) 1000000%float = false
  /\ (0 <=? in_sender_age_days raw) = true
  /\ (0 <=? in_transactions_last_24h raw) = true
  /\ (in_transactions_last_24h raw <=? 1000) = true
  /\ PyFloat.ge (in_avg_transaction_amount raw) 0%float = true
  /\ PyFloat.ge (in_sender_country_risk_score raw) 0%float = true
  /\ PyFloat.le (in_sender_country_risk_score raw) 1%float = true
  /\ (0 <=? in_hour_of_day raw) = true
  /\ (in_hour_of_day raw <=? 23) = true.
Proof.
  unfold validate, check_transaction_amount_usd, validate_amount,
    check_sender_age_days, check_transactions_last_24h,
    check_avg_transaction_amount, check_sender_country_risk_score,
    check_hour_of_day.
  destruct (PyFloat.ge (in_transaction_amount_usd raw) 0%float);
    [destruct (PyFloat.gt (in_transaction_amount_usd raw) 1000000%float)|];
    (destruct (0 <=? in_sender_age_days raw);
     [|try discriminate]);
    (destruct (0 <=? in_transactions_last_24h raw);
     [destruct (in_transactions_last_24h raw <=? 1000)|]);
    (destruct (PyFloat.ge (in_avg_transaction_amount raw) 0%float));
    (destruct (PyFloat.ge (in_sender_country_risk_score raw) 0%float);
     [destruct (PyFloat.le (in_sender_country_risk_score raw) 1%float)|]);
    (destruct (0 <=? in_hour_of_day raw);
     [destruct (in_hour_of_day raw <=? 23)|]);
    simpl; try discriminate.
  intros [= <-]. repeat split; reflexivity.
Qed.

Lemma float_constant_not_nan_0 : Prim2SF 0%float <> S754_nan.
Proof. vm_compute. discriminate. Qed.

Lemma float_constant_not_nan_million : Prim2SF 1000000%float <> S754_nan.
Proof. vm_compute. discriminate. Qed.

(** X1. An accepted input is copied field for field into the
    [TransactionFeatures] object and every field is within its bounds:
    the amount in [0, 1_000_000], the age non-negative, the count in
    [0, 1000], the average non-negative, the country risk in [0, 1] and
    the hour in [0, 23]. *)
Theorem accepted_features_within_bounds raw f :
  validate raw = inr f ->
  transaction_amount_usd f = in_transaction_amount_usd raw
  /\ sender_age_days f = in_sender_age_days raw
  /\ transactions_last_24h f = in_transactions_last_24h raw
  /\ avg_transaction_amount f = in_avg_transaction_amount raw
  /\ sender_country_risk_score f = in_sender_country_risk_score raw
  /\ is_new_recipient f = in_is_new_recipient raw
  /\ hour_of_day f = in_hour_of_day raw
  /\ PyFloat.le 0%float (transaction_amount_usd f) = true
  /\ PyFloat.le (transaction_amount_usd f) 1000000%float = true
  /\ 0 <= sender_age_days f
  /\ 0 <= transactions_last_24h f <= 1000
  /\ PyFloat.le 0%float (avg_transaction_amount f) = true
  /\ PyFloat.le 0%float (sender_country_risk_score f) = true
  /\ PyFloat.le (sender_country_risk_score f) 1%float = true
  /\ 0 <= hour_of_day f <= 23.
Proof.
  intros Hv.
  destruct (validate_inr_inv raw f Hv)
    as (-> & Ha0 & Ha1 & Hg & Hq0 & Hq1 & Hv0 & Hc0 & Hc1 & Hh0 & Hh1).
  simpl. repeat split; try reflexivity; try assumption; try lia.
  apply not_lt_le; [|exact float_constant_not_nan_million|exact Ha1].
  exact (le_not_nan_r _ _ Ha0).
Qed.

(** X2. Conversely an input whose fields are all within these bounds is
    accepted, and the object carries exactly its fields. *)
Theorem within_bounds_features_accepted raw :
  PyFloat.le 0%float (in_transaction_amount_usd raw) = true ->
  PyFloat.le (in_transaction_amount_usd raw) 1000000%float = true ->
  0 <= in_sender_age_days raw ->
  0 <= in_transactions_last_24h raw <= 1000 ->
  PyFloat.le 0%float (in_avg_transaction_amount raw) = true ->
  PyFloat.le 0%float (in_sender_country_risk_score raw) = true ->
  PyFloat.le (in_sender_country_risk_score raw) 1%float = true ->
  0 <= in_hour_of_day raw <= 23 ->
  validate raw
  = inr {| transaction_amount_usd := in_transaction_amount_usd raw;
           sender_age_days := in_sender_age_days raw;
           transactions_last_24h := in_transactions_last_24h raw;
           avg_transaction_amount := in_avg_transaction_amount raw;
           sender_country_risk_score := in_sender_country_risk_score raw;
           is_new_recipient := in_is_new_recipient raw;
           hour_of_day := in_hour_of_day raw |}.
Proof.
  intros Ha0 Ha1 Hg Hq Hv0 Hc0 Hc1 Hh.
  unfold validate, check_transaction_amount_usd, validate_amount,
    check_sender_age_days, check_transactions_last_24h,
    check_avg_transaction_amount, check_sender_country_risk_score,
    check_hour_of_day.
  change (PyFloat.ge (in_transaction_amount_usd raw) 0%float)
    with (PyFloat.le 0%float (in_transaction_amount_usd raw)).
  change (PyFloat.gt (in_transaction_amount_usd raw) 1000000%float)
    with (PyFloat.lt 1000000%float (in_transaction_amount_usd raw)).
  change (PyFloat.ge (in_avg_transaction_amount raw) 0%float)
    with (PyFloat.le 0%float (in_avg_transaction_amount raw)).
  change (PyFloat.ge (in_sender_country_risk_score raw) 0%float)
    with (PyFloat.le 0%float (in_sender_country_risk_score raw)).
  rewrite Ha0, (le_not_lt _ _ Ha1), Hv0, Hc0, Hc1.
  rewrite (proj2 (Z.leb_le 0 (in_sender_age_days raw))) by lia.
  rewrite (proj2 (Z.leb_le 0 (in_transactions_last_24h raw))) by lia.
  rewrite (proj2 (Z.leb_le (in_transactions_last_24h raw) 1000)) by lia.
  rewrite (proj2 (Z.leb_le 0 (in_hour_of_day raw))) by lia.
  rewrite (proj2 (Z.leb_le (in_hour_of_day raw) 23)) by lia.
  reflexivity.
Qed.

(** X3. No NaN reaches the predictor: every float of the feature vector
    of an accepted input is a number. The [ge=0] bound of each float
    field is the test [v >= 0], which a NaN fails. *)
Theorem accepted_feature_vector_has_no_nan raw f x :
  validate raw = inr f ->
  In (Float x) (Service.feature_vector f) ->
  PrimFloat.is_nan x = false.
Proof.
  intros Hv Hin.
  destruct (validate_inr_inv raw f Hv)
    as (-> & Ha0 & _ & _ & _ & _ & Hv0 & Hc0 & _).
  simpl in Hin.
  destruct Hin as [[= <-] | [[=] | [[=] | [[= <-] | [[= <-] | [[=] | [[=] | []]]]]]]];
    apply not_nan_is_nan; eapply le_not_nan_r; eassumption.
Qed.


End ValidationBounds.

(** ** Further properties of the service *)

Section ServiceInvariants.

Context (MODEL_VERSION ENVIRONMENT : string)
        (SERVICE_START_TIME : float)
        (sha256_hexdigest : string -> string)
        (repr_float : float -> string)
        (uuid4 : nat -> string).

Let score_transaction :=
  Service.score_transaction MODEL_VERSION ENVIRONMENT sha256_hexdigest repr_float uuid4.
Let add_correlation_id :=
  Service.add_correlation_id MODEL_VERSION ENVIRONMENT SERVICE_START_TIME
    sha256_hexdigest repr_float uuid4.
Let serve :=
  Service.serve MODEL_VERSION ENVIRONMENT SERVICE_START_TIME
    sha256_hexdigest repr_float uuid4.

(** *** The risk policy on every float *)

(** X5. The risk level is decided by the three comparisons alone, for
    every float the predictor may return: LOW exactly when
    [p < 0.3] (negative scores included), CRITICAL exactly when
    [p < 0.8] fails (scores above 1 and NaN included), MEDIUM and HIGH
    in between; and the recommendation is APPROVE for LOW, REVIEW for
    MEDIUM and HIGH, REJECT for CRITICAL. *)
Theorem risk_level_by_comparisons (p : float) :
  (fst (Service.risk_policy p) = "LOW" <-> PyFloat.lt p 0.3%float = true)
  /\ (fst (Service.risk_policy p) = "MEDIUM"
      <-> PyFloat.lt p 0.3%float = false /\ PyFloat.lt p 0.6%float = true)
  /\ (fst (Service.risk_policy p) = "HIGH"
      <-> PyFloat.lt p 0.6%float = false /\ PyFloat.lt p 0.8%float = true)
  /\ (fst (Service.risk_policy p) = "CRITICAL" <-> PyFloat.lt p 0.8%float = false)
  /\ snd (Service.risk_policy p)
     = (if bool_decide (fst (Service.risk_policy p) = "LOW") then "APPROVE"
        else if bool_decide (fst (Service.risk_policy p) = "CRITICAL") then "REJECT"
        else "REVIEW").
Proof.
  assert (H36 : PyFloat.lt p 0.3%float = true -> PyFloat.lt p 0.6%float = true)
    by (intros H; exact (lt_trans p 0.3%float 0.6%float H eq_refl)).
  assert (H68 : PyFloat.lt p 0.6%float = true -> PyFloat.lt p 0.8%float = true)
    by (intros H; exact (lt_trans p 0.6%float 0.8%float H eq_refl)).
  unfold Service.risk_policy.
  destruct (PyFloat.lt p 0.3%float) eqn:H3;
    destruct (PyFloat.lt p 0.6%float) eqn:H6;
    destruct (PyFloat.lt p 0.8%float) eqn:H8; simpl;
    try (specialize (H36 eq_refl)); try (specialize (H68 eq_refl));
    try discriminate;
    repeat split; intros; try discriminate; try tauto;
    match goal with H : _ /\ _ |- _ => destruct H; discriminate end.
Qed.

(** X6. The risk level is monotone in the score: a higher probability
    never gets a lower level. *)
Theorem risk_level_monotone (p q : float) :
  PyFloat.le p q = true ->
  (Service.severity (fst (Service.risk_policy p))
   <= Service.severity (fst (Service.risk_policy q)))%nat.
Proof.
  intros Hpq.
  assert (Hdown : forall c, PyFloat.lt q c = true -> PyFloat.lt p c = true)
    by (intros c; apply le_lt_trans; exact Hpq).
  unfold Service.risk_policy.
  destruct (PyFloat.lt q 0.3%float) eqn:Hq3.
  { rewrite (Hdown _ Hq3). simpl. lia. }
  destruct (PyFloat.lt q 0.6%float) eqn:Hq6.
  { destruct (PyFloat.lt p 0.3%float); [vm_compute; lia|].
    rewrite (Hdown _ Hq6). vm_compute. lia. }
  destruct (PyFloat.lt q 0.8%float) eqn:Hq8.
  { destruct (PyFloat.lt p 0.3%float); [vm_compute; lia|].
    destruct (PyFloat.lt p 0.6%float); [vm_compute; lia|].
    rewrite (Hdown _ Hq8). vm_compute. lia. }
  destruct (PyFloat.lt p 0.3%float); [vm_compute; lia|].
  destruct (PyFloat.lt p 0.6%float); [vm_compute; lia|].
  destruct (PyFloat.lt p 0.8%float); vm_compute; lia.
Qed.

(** *** Every path of the handler *)

(** What a call of [score_transaction] returns and how it leaves each
    global, on its three paths. *)
Lemma score_transaction_cases clk request hdr s :
  let cid := default (uuid4 (uuid_calls s)) (truthy hdr) in
  exists s' o,
    score_transaction clk request hdr s = (s', o)
    /\ model s' = model s
    /\ uuid_calls s'
       = (uuid_calls s + match truthy hdr with Some _ => 0 | None => 1 end)%nat
    /\ ((model s = None
         /\ o = HTTPException 503 "Model not loaded"
         /\ PREDICTION_COUNTER s'
            = inc (MODEL_VERSION, "ERROR", "error") (PREDICTION_COUNTER s)
         /\ PREDICTION_LATENCY s' = PREDICTION_LATENCY s
         /\ HIGH_RISK_TRANSACTIONS s' = HIGH_RISK_TRANSACTIONS s
         /\ audit_logs s' = audit_logs s)
        \/ (exists m e,
              model s = Some m
              /\ m (Service.feature_vector (features request)) = raises e
              /\ o = match e with
                     | ValueError msg => HTTPException 400 ("Invalid input: " +:+ msg)
                     | OtherException _ => HTTPException 500 "Internal server error"
                     end
              /\ PREDICTION_COUNTER s'
                 = inc (MODEL_VERSION, "ERROR",
                        match e with
                        | ValueError _ => "validation_error"
                        | OtherException _ => "error"
                        end) (PREDICTION_COUNTER s)
              /\ PREDICTION_LATENCY s'
                 = PREDICTION_LATENCY s ++ [(MODEL_VERSION, predict_seconds clk)]
              /\ HIGH_RISK_TRANSACTIONS s' = HIGH_RISK_TRANSACTIONS s
              /\ audit_logs s' = audit_logs s)
        \/ (exists m p,
              model s = Some m
              /\ m (Service.feature_vector (features request)) = proba p
              /\ o = returns
                       {| resp_transaction_id := transaction_id request;
                          resp_risk_score := PyFloat.round p 4;
                          resp_risk_level := fst (Service.risk_policy p);
                          resp_recommendation := snd (Service.risk_policy p);
                          resp_model_version := MODEL_VERSION;
                          resp_timestamp := response_utcnow clk;
                          resp_correlation_id := cid;
                          resp_features_hash :=
                            Service.features_hash_of sha256_hexdigest repr_float
                              (features request);
                          resp_processing_time_ms :=
                            PyFloat.round ((end_time clk - start_time clk) * 1000)%float 2 |}
              /\ PREDICTION_COUNTER s'
                 = inc (MODEL_VERSION, fst (Service.risk_policy p), "success")
                     (PREDICTION_COUNTER s)
              /\ PREDICTION_LATENCY s'
                 = PREDICTION_LATENCY s ++ [(MODEL_VERSION, predict_seconds clk)]
              /\ HIGH_RISK_TRANSACTIONS s'
                 = HIGH_RISK_TRANSACTIONS s
                   + (if Service.is_high_risk (fst (Service.risk_policy p))
                      then 1 else 0)
              /\ audit_logs s'
                 = audit_logs s
                   ++ [{| audit_timestamp := audit_utcnow clk;
                          audit_transaction_id := transaction_id request;
                          audit_customer_id := customer_id request;
                          audit_risk_score := p;
                          audit_risk_level := fst (Service.risk_policy p);
                          audit_recommendation := snd (Service.risk_policy p);
                          audit_model_version := MODEL_VERSION;
                          audit_environment := ENVIRONMENT;
                          audit_correlation_id := cid |}])).
Proof.
  unfold score_transaction, Service.score_transaction, Service.try_block.
  destruct (truthy hdr) as [c|]; simpl;
    destruct (model s) as [m|] eqn:Hmodel; simpl;
    try destruct (m (Service.feature_vector (features request))) as [p|e] eqn:Hm;
    simpl.
  all: try (destruct (Service.risk_policy p) as [level rec] eqn:Hpol; simpl;
            eexists _, _; split; [reflexivity|];
            split; [destruct (Service.is_high_risk level); simpl; congruence|];
            split; [destruct (Service.is_high_risk level); simpl; lia|];
            right; right; exists m, p; rewrite Hpol; simpl;
            destruct (Service.is_high_risk level); simpl;
            repeat split; first [reflexivity | assumption | lia]).
  all: try (destruct e as [msg | msg];
            (eexists _, _; (split; [reflexivity|]); simpl;
             (split; [congruence|]); (split; [lia|]);
             right; left);
            [exists m, (ValueError msg) | exists m, (OtherException msg)];
            repeat split; first [reflexivity | assumption]).
  all: eexists _, _; (split; [reflexivity|]); simpl;
    (split; [congruence|]); (split; [lia|]);
    left; repeat split; first [reflexivity | assumption].
Qed.
(** A counter child after an increment of any child. *)
Lemma value_inc (k k' : Labels) (c : gmap Labels nat) :
  value (inc k c) k' = (value c k' + if bool_decide (k = k') then 1 else 0)%nat.
Proof.
  case_bool_decide as Hk.
  - subst. rewrite value_inc_eq. lia.
  - rewrite (value_inc_ne _ _ _ Hk). lia.
Qed.

(** What one request does to the globals: nothing when it does not
    reach the handler, one ERROR increment when the handler raises, and
    one success increment, the gauge and one audit entry when it
    returns. *)
Lemma add_correlation_id_cases req hdr s :
  exists s' r,
    add_correlation_id req hdr s = (s', r)
    /\ model s' = model s
    /\ Service.X_Correlation_ID r = default (uuid4 (uuid_calls s)) hdr
    /\ ((Service.reaches_handler (req, hdr) = false
         /\ Service.scored r = false
         /\ PREDICTION_COUNTER s' = PREDICTION_COUNTER s
         /\ PREDICTION_LATENCY s' = PREDICTION_LATENCY s
         /\ HIGH_RISK_TRANSACTIONS s' = HIGH_RISK_TRANSACTIONS s
         /\ audit_logs s' = audit_logs s
         /\ uuid_calls s' = S (uuid_calls s))
        \/ (Service.reaches_handler (req, hdr) = true
            /\ Service.scored r = false
            /\ (exists status,
                  (status = "error" \/ status = "validation_error")
                  /\ PREDICTION_COUNTER s'
                     = inc (MODEL_VERSION, "ERROR", status) (PREDICTION_COUNTER s))
            /\ HIGH_RISK_TRANSACTIONS s' = HIGH_RISK_TRANSACTIONS s
            /\ audit_logs s' = audit_logs s)
        \/ (Service.reaches_handler (req, hdr) = true
            /\ exists resp e,
                 Service.content r = Service.score_json resp
                 /\ Service.status_code r = 200
                 /\ PREDICTION_COUNTER s'
                    = inc (MODEL_VERSION, resp_risk_level resp, "success")
                        (PREDICTION_COUNTER s)
                 /\ HIGH_RISK_TRANSACTIONS s'
                    = HIGH_RISK_TRANSACTIONS s
                      + (if Service.is_high_risk (resp_risk_level resp) then 1 else 0)
                 /\ audit_logs s' = audit_logs s ++ [e])).
Proof.
  unfold add_correlation_id, Service.add_correlation_id,
    Service.reaches_handler. simpl.
  destruct req as [clk body | limit | now | now | | ]; simpl.
  - destruct (Validation.validate_request body) as [errs | request].
    + eexists _, _. split; [reflexivity|]. simpl.
      do 2 (split; [reflexivity|]). left. repeat split; reflexivity.
    + match goal with
      | |- context [Service.score_transaction _ _ _ _ _ clk request hdr ?s1] =>
          destruct (score_transaction_cases clk request hdr s1)
            as (s' & o & Hrun & Hmodel & _ & Hcases)
      end.
      unfold score_transaction in Hrun. rewrite Hrun.
      destruct Hcases as [(_ & -> & Hc & _ & Hg & Ha)
                         | [(m & e & _ & _ & -> & Hc & _ & Hg & Ha)
                           | (m & p & _ & _ & -> & Hc & _ & Hg & Ha)]];
        simpl in *.
      * eexists _, _. split; [reflexivity|]. simpl.
        do 2 (split; [assumption || reflexivity|]). right. left.
        repeat split; eauto.
      * destruct e; eexists _, _; (split; [reflexivity|]); simpl;
          (do 2 (split; [assumption || reflexivity|])); right; left;
          repeat split; eauto.
      * eexists _, _. split; [reflexivity|]. simpl.
        do 2 (split; [assumption || reflexivity|]). right. right.
        split; [reflexivity|]. eexists _, _.
        split; [reflexivity|]. simpl. repeat split; eassumption.
  - eexists _, _. split; [reflexivity|]. simpl.
    do 2 (split; [reflexivity|]). left. repeat split; reflexivity.
  - eexists _, _. split; [reflexivity|]. simpl.
    do 2 (split; [reflexivity|]). left. repeat split; reflexivity.
  - unfold Service.readiness_check.
    destruct (model s); eexists _, _; (split; [reflexivity|]); simpl;
      (do 2 (split; [reflexivity|])); left; repeat split; reflexivity.
  - eexists _, _. split; [reflexivity|]. simpl.
    do 2 (split; [reflexivity|]). left. repeat split; reflexivity.
  - eexists _, _. split; [reflexivity|]. simpl.
    do 2 (split; [reflexivity|]). left. repeat split; reflexivity.
Qed.

Lemma serve_cons req hdr rest s :
  serve ((req, hdr) :: rest) s
  = (fst (serve rest (fst (add_correlation_id req hdr s))),
     snd (add_correlation_id req hdr s)
     :: snd (serve rest (fst (add_correlation_id req hdr s)))).
Proof.
  unfold serve, add_correlation_id. simpl.
  destruct (Service.add_correlation_id _ _ _ _ _ _ req hdr s) as [s1 r].
  simpl. destruct (Service.serve _ _ _ _ _ _ rest s1) as [s2 rs]. reflexivity.
Qed.

(** *** Readiness, latency, and the audit entry of a response *)

(** X7. The readiness probe and the scoring handler agree: [/ready]
    answers ready exactly when no scoring call can be refused with the
    503 "Model not loaded". *)
Theorem ready_iff_scoring_available now s :
  (exists h,
     Service.readiness_check MODEL_VERSION ENVIRONMENT SERVICE_START_TIME now s
     = returns h)
  <-> (forall clk request hdr,
         snd (score_transaction clk request hdr s)
         <> HTTPException 503 "Model not loaded").
Proof.
  unfold Service.readiness_check. split.
  - intros [h Hready] clk request hdr.
    destruct (score_transaction_cases clk request hdr s)
      as (s' & o & -> & _ & _ & [(Hnone & _)
                               | [(m & e & _ & _ & -> & _)
                                 | (m & p & _ & _ & -> & _)]]); simpl.
    + rewrite Hnone in Hready. discriminate.
    + destruct e; discriminate.
    + discriminate.
  - intros Hnever. destruct (model s) as [m|] eqn:Hmodel; [eauto|].
    exfalso. apply (Hnever Demo.clock Demo.request None).
    destruct (score_transaction_cases Demo.clock Demo.request None s)
      as (s' & o & -> & _ & _ & [(_ & -> & _)
                               | [(m & e & Hsome & _) | (m & p & Hsome & _)]]);
      simpl; congruence.
Qed.

(** X8. Every call that gets to the predictor records one latency
    observation, labelled with the model version, also when the
    prediction raises; a call refused for a missing model records
    none. *)
Theorem latency_observed_once_per_prediction clk request hdr s :
  PREDICTION_LATENCY (fst (score_transaction clk request hdr s))
  = PREDICTION_LATENCY s
    ++ match model s with
       | Some _ => [(MODEL_VERSION, predict_seconds clk)]
       | None => []
       end.
Proof.
  destruct (score_transaction_cases clk request hdr s)
    as (s' & o & Hrun & _ & _ & Hcases).
  rewrite Hrun. simpl.
  destruct Hcases as [(Hm & _ & _ & Hl & _)
                     | [(m & e & Hm & _ & _ & _ & Hl & _)
                       | (m & p & Hm & _ & _ & _ & Hl & _)]];
    rewrite Hl, Hm; [now rewrite app_nil_r | reflexivity | reflexivity].
Qed.

(** X9. The audit entry of a successful scoring and the response
    describe the same decision: same transaction id (the request's),
    risk level, recommendation, model version and correlation id; the
    entry carries the request's customer id and the environment, and the
    returned score is the audited score rounded to 4 decimals. *)
Theorem audit_entry_agrees_with_response clk request hdr s s' r :
  score_transaction clk request hdr s = (s', returns r) ->
  exists e,
    audit_logs s' = audit_logs s ++ [e]
    /\ audit_transaction_id e = transaction_id request
    /\ resp_transaction_id r = transaction_id request
    /\ audit_customer_id e = customer_id request
    /\ audit_risk_level e = resp_risk_level r
    /\ audit_recommendation e = resp_recommendation r
    /\ audit_model_version e = MODEL_VERSION
    /\ resp_model_version r = MODEL_VERSION
    /\ audit_environment e = ENVIRONMENT
    /\ audit_correlation_id e = resp_correlation_id r
    /\ resp_risk_score r = PyFloat.round (audit_risk_score e) 4.
Proof.
  intros Hrun.
  destruct (score_transaction_cases clk request hdr s)
    as (s0 & o & Hrun' & _ & _ & [(_ & -> & _)
                                | [(m & e & _ & _ & -> & _)
                                  | (m & p & _ & _ & -> & _ & _ & _ & Ha)]]);
    rewrite Hrun in Hrun'; [discriminate | destruct e; discriminate |].
  injection Hrun' as -> ->. eexists. split; [exact Ha|].
  simpl. repeat split; reflexivity.
Qed.

(** *** The middleware and the routes *)


(** X11. An empty [X-Correlation-ID] header is echoed as it is in the
    response header, but the handler takes it for absent: the response
    body and the audit entry carry a generated token. *)
Theorem empty_correlation_header_is_replaced_in_body clk body request s m p :
  Validation.validate_request body = inr request ->
  model s = Some m ->
  m (Service.feature_vector (features request)) = proba p ->
  exists s' resp r e,
    add_correlation_id (Service.POST_score clk body) (Some EmptyString) s = (s', resp)
    /\ Service.content resp = Service.score_json r
    /\ Service.X_Correlation_ID resp = EmptyString
    /\ resp_correlation_id r = uuid4 (S (uuid_calls s))
    /\ audit_logs s' = audit_logs s ++ [e]
    /\ audit_correlation_id e = uuid4 (S (uuid_calls s)).
Proof.
  intros Hvalid Hmodel Hm.
  unfold add_correlation_id, Service.add_correlation_id. simpl. rewrite Hvalid.
  match goal with
  | |- context [Service.score_transaction _ _ _ _ _ clk request ?h ?s1] =>
      destruct (score_transaction_cases clk request h s1)
        as (s' & o & Hrun & _ & _ & [(Hnone & _)
                                   | [(m' & e & Hsome & Hm' & _)
                                     | (m' & p' & _ & _ & -> & _ & _ & _ & Ha)]])
  end; simpl in *; try congruence.
  unfold score_transaction in Hrun. rewrite Hrun. simpl.
  eexists _, _, _, _. split; [reflexivity|]. simpl.
  split; [reflexivity|]. split; [reflexivity|]. split; [reflexivity|].
  split; [exact Ha | reflexivity].
Qed.

(** X12. A request that does not reach the handler (any GET route, or a
    [POST /score] with an invalid body) changes none of the model, the
    counter, the histogram, the gauge and the audit log. *)
Theorem unhandled_request_changes_nothing req hdr s :
  Service.reaches_handler (req, hdr) = false ->
  model (fst (add_correlation_id req hdr s)) = model s
  /\ PREDICTION_COUNTER (fst (add_correlation_id req hdr s)) = PREDICTION_COUNTER s
  /\ PREDICTION_LATENCY (fst (add_correlation_id req hdr s)) = PREDICTION_LATENCY s
  /\ HIGH_RISK_TRANSACTIONS (fst (add_correlation_id req hdr s))
     = HIGH_RISK_TRANSACTIONS s
  /\ audit_logs (fst (add_correlation_id req hdr s)) = audit_logs s.
Proof.
  intros Hno.
  destruct (add_correlation_id_cases req hdr s)
    as (s' & r & -> & Hmodel & _ & [(_ & _ & Hc & Hl & Hg & Ha & _)
                                   | [(Hyes & _) | (Hyes & _)]]);
    simpl; [auto | congruence | congruence].
Qed.

(** X13. Outside the range 1..length the tail read keeps Python's slice
    semantics: a limit of 0 or below drops the first [-limit] entries
    (none for 0, so the whole log is returned), and a limit of at least
    the length returns the whole log; [total] is always the length of
    the log. *)
Theorem audit_tail_outside_range :
  (forall (limit : Z) (s : State),
     limit <= 0 ->
     Service.get_audit_logs limit s
     = (length (audit_logs s), drop (Z.to_nat (- limit)) (audit_logs s)))
  /\ (forall (limit : Z) (s : State),
        Z.of_nat (length (audit_logs s)) <= limit ->
        Service.get_audit_logs limit s = (length (audit_logs s), audit_logs s)).
Proof.
  split; intros limit s Hlimit; unfold Service.get_audit_logs, slice_from; f_equal.
  - destruct (Z.ltb_spec (- limit) 0) as [|_]; [lia|].
    destruct (Z.min_spec (- limit) (Z.of_nat (length (audit_logs s))))
      as [[_ ->] | [Hge ->]]; [reflexivity|].
    rewrite Nat2Z.id. rewrite !drop_ge by lia. reflexivity.
  - destruct (Z.ltb_spec (- limit) 0) as [_|Hle].
    + replace (Z.to_nat (Z.max (- limit + Z.of_nat (length (audit_logs s))) 0))
        with 0%nat by lia.
      reflexivity.
    + destruct (audit_logs s); [apply drop_nil | simpl in Hlimit; lia].
Qed.


(** *** Invariants over sequences of requests *)

Lemma scored_at_of_scored level r :
  Service.scored r = false -> Service.scored_at level r = false.
Proof.
  unfold Service.scored, Service.scored_at. destruct (Service.content r); congruence.
Qed.

(** Without a model a request produces no score and no audit entry. *)
Lemma add_correlation_id_no_model req hdr s :
  model s = None ->
  Service.scored (snd (add_correlation_id req hdr s)) = false
  /\ audit_logs (fst (add_correlation_id req hdr s)) = audit_logs s
  /\ PREDICTION_LATENCY (fst (add_correlation_id req hdr s)) = PREDICTION_LATENCY s.
Proof.
  intros Hnone.
  destruct (Service.reaches_handler (req, hdr)) eqn:Hreach.
  - unfold Service.reaches_handler in Hreach. simpl in Hreach.
    destruct req as [clk body | | | | | ]; try discriminate.
    unfold add_correlation_id, Service.add_correlation_id. simpl.
    destruct (Validation.validate_request body) as [errs | request];
      [discriminate|].
    match goal with
    | |- context [Service.score_transaction _ _ _ _ _ clk request hdr ?s1] =>
        destruct (score_transaction_cases clk request hdr s1)
          as (s' & o & Hrun & _ & _ & Hcases)
    end.
    unfold score_transaction in Hrun. rewrite Hrun. simpl in Hcases.
    destruct Hcases as [(_ & -> & _ & Hl & _ & Ha)
                       | [(m & e & Hsome & _) | (m & p & Hsome & _)]];
      [|congruence|congruence].
    simpl. auto.
  - destruct (add_correlation_id_cases req hdr s)
      as (s' & r & Hrun & _ & _ & [(_ & Hs & _ & Hl & _ & Ha & _)
                                  | [(Hyes & _) | (Hyes & _)]]);
      [|congruence|congruence].
    rewrite Hrun. simpl. auto.
Qed.

(** X15. Serving requests never changes the loaded model: whatever is
    sent, in whatever order, every request is answered by the predictor
    that [load_model] installed (or by none). *)
Theorem serving_never_changes_the_model reqs s :
  model (fst (serve reqs s)) = model s.
Proof.
  revert s. induction reqs as [|[req hdr] rest IH]; intros s; [reflexivity|].
  rewrite serve_cons. simpl. rewrite IH.
  destruct (add_correlation_id_cases req hdr s) as (s' & r & -> & Hmodel & _).
  exact Hmodel.
Qed.

(** X16. While no model is loaded, no sequence of requests produces a
    score, an audit entry or a latency observation. *)
Theorem no_model_no_score_no_audit reqs s :
  model s = None ->
  Forall (fun r => Service.scored r = false) (snd (serve reqs s))
  /\ audit_logs (fst (serve reqs s)) = audit_logs s
  /\ PREDICTION_LATENCY (fst (serve reqs s)) = PREDICTION_LATENCY s.
Proof.
  revert s. induction reqs as [|[req hdr] rest IH]; intros s Hnone.
  - simpl. auto.
  - rewrite serve_cons. simpl.
    destruct (add_correlation_id_no_model req hdr s Hnone) as (Hs & Ha & Hl).
    assert (Hnone' : model (fst (add_correlation_id req hdr s)) = None).
    { destruct (add_correlation_id_cases req hdr s) as (s' & r & -> & Hmodel & _).
      simpl. congruence. }
    destruct (IH _ Hnone') as (IHs & IHa & IHl).
    split; [constructor; assumption|]. split; congruence.
Qed.

(** X17. The audit log is append-only: after any sequence of requests
    the log is the old log followed by new entries, one for each
    response that carries a score. *)
Theorem audit_log_is_append_only reqs s :
  exists new,
    audit_logs (fst (serve reqs s)) = audit_logs s ++ new
    /\ length new = length (List.filter Service.scored (snd (serve reqs s))).
Proof.
  revert s. induction reqs as [|[req hdr] rest IH]; intros s.
  - exists []. simpl. now rewrite app_nil_r.
  - rewrite serve_cons. simpl.
    destruct (add_correlation_id_cases req hdr s)
      as (s' & r & -> & _ & _ & Hcases). simpl.
    destruct (IH s') as (new & Hnew & Hlen). rewrite Hnew.
    destruct Hcases as [(_ & Hs & _ & _ & _ & Ha & _)
                       | [(_ & Hs & _ & _ & Ha)
                         | (_ & resp & e & Hcontent & _ & _ & _ & Ha)]].
    + exists new. rewrite Hs, Ha. auto.
    + exists new. rewrite Hs, Ha. auto.
    + assert (Hs : Service.scored r = true)
        by (unfold Service.scored; now rewrite Hcontent).
      exists (e :: new). rewrite Ha, <- app_assoc, Hs. simpl. auto.
Qed.

(** X18. The outcome counter counts the calls of the handler: over any
    sequence of requests its total grows by the number of [POST /score]
    requests with a valid body, and no child ever decreases. *)
Theorem counter_counts_handled_requests reqs s :
  total (PREDICTION_COUNTER (fst (serve reqs s)))
  = (total (PREDICTION_COUNTER s)
     + length (List.filter Service.reaches_handler reqs))%nat
  /\ forall k,
       (value (PREDICTION_COUNTER s) k
        <= value (PREDICTION_COUNTER (fst (serve reqs s))) k)%nat.
Proof.
  revert s. induction reqs as [|[req hdr] rest IH]; intros s.
  - simpl. split; [lia | intros; lia].
  - rewrite serve_cons. simpl.
    destruct (add_correlation_id_cases req hdr s)
      as (s' & r & -> & _ & _ & Hcases). simpl.
    destruct (IH s') as (IHt & IHv). rewrite IHt.
    destruct Hcases as [(-> & _ & Hc & _)
                       | [(-> & _ & (status & _ & Hc) & _)
                         | (-> & resp & e & _ & _ & Hc & _)]];
      rewrite Hc in *; simpl.
    + split; [lia | exact IHv].
    + rewrite total_inc. split; [lia|].
      intros k. specialize (IHv k). rewrite value_inc in IHv. lia.
    + rewrite total_inc. split; [lia|].
      intros k. specialize (IHv k). rewrite value_inc in IHv. lia.
Qed.

(** X19. Per risk level, the success child of the counter counts the
    scores returned at that level: over any sequence of requests
    [(MODEL_VERSION, level, "success")] grows by the number of responses
    that carry a score of that level. *)
Theorem success_counter_counts_scores_by_level level reqs s :
  value (PREDICTION_COUNTER (fst (serve reqs s))) (MODEL_VERSION, level, "success")
  = (value (PREDICTION_COUNTER s) (MODEL_VERSION, level, "success")
     + length (List.filter (Service.scored_at level) (snd (serve reqs s))))%nat.
Proof.
  revert s. induction reqs as [|[req hdr] rest IH]; intros s.
  - simpl. lia.
  - rewrite serve_cons. simpl.
    destruct (add_correlation_id_cases req hdr s)
      as (s' & r & -> & _ & _ & Hcases). simpl.
    rewrite (IH s').
    destruct Hcases as [(_ & Hs & Hc & _)
                       | [(_ & Hs & (status & Hstatus & Hc) & _)
                         | (_ & resp & e & Hcontent & _ & Hc & _)]];
      rewrite Hc.
    + rewrite (scored_at_of_scored level r Hs). lia.
    + rewrite (scored_at_of_scored level r Hs), value_inc.
      rewrite bool_decide_eq_false_2; [lia|].
      destruct Hstatus as [-> | ->]; congruence.
    + assert (Hs : Service.scored_at level r
                   = bool_decide (resp_risk_level resp = level))
        by (unfold Service.scored_at; now rewrite Hcontent).
      rewrite value_inc, Hs.
      destruct (decide (resp_risk_level resp = level)) as [Heq | Hne].
      * rewrite !bool_decide_eq_true_2 by congruence. simpl. lia.
      * rewrite !bool_decide_eq_false_2 by congruence. simpl. lia.
Qed.

(** X20. The gauge and the counter stay consistent: if the gauge equals
    the HIGH plus the CRITICAL success counts (as in the initial state,
    where all are 0), it still does after any sequence of requests. *)
Theorem gauge_matches_high_and_critical_counts reqs s :
  HIGH_RISK_TRANSACTIONS s
  = Z.of_nat (value (PREDICTION_COUNTER s) (MODEL_VERSION, "HIGH", "success"))
    + Z.of_nat (value (PREDICTION_COUNTER s) (MODEL_VERSION, "CRITICAL", "success")) ->
  HIGH_RISK_TRANSACTIONS (fst (serve reqs s))
  = Z.of_nat (value (PREDICTION_COUNTER (fst (serve reqs s)))
                (MODEL_VERSION, "HIGH", "success"))
    + Z.of_nat (value (PREDICTION_COUNTER (fst (serve reqs s)))
                  (MODEL_VERSION, "CRITICAL", "success")).
Proof.
  revert s. induction reqs as [|[req hdr] rest IH]; intros s Hinv; [exact Hinv|].
  rewrite serve_cons. simpl. apply IH.
  destruct (add_correlation_id_cases req hdr s)
    as (s' & r & -> & _ & _ & Hcases). simpl.
  destruct Hcases as [(_ & _ & Hc & _ & Hg & _)
                     | [(_ & _ & (status & Hstatus & Hc) & Hg & _)
                       | (_ & resp & e & _ & _ & Hc & Hg & _)]];
    rewrite Hc, Hg, Hinv.
  - reflexivity.
  - rewrite !value_inc.
    rewrite !bool_decide_eq_false_2 by (destruct Hstatus as [-> | ->]; congruence).
    lia.
  - rewrite !value_inc. unfold Service.is_high_risk.
    destruct (decide (resp_risk_level resp = "HIGH")) as [-> | Hh].
    + rewrite (bool_decide_eq_true_2 ("HIGH" = "HIGH")) by reflexivity.
      rewrite (bool_decide_eq_true_2 (_ = (MODEL_VERSION, "HIGH", "success")))
        by reflexivity.
      rewrite (bool_decide_eq_false_2 (_ = (MODEL_VERSION, "CRITICAL", "success")))
        by congruence.
      simpl. lia.
    + rewrite (bool_decide_eq_false_2 (resp_risk_level resp = "HIGH")) by exact Hh.
      rewrite (bool_decide_eq_false_2 (_ = (MODEL_VERSION, "HIGH", "success")))
        by congruence.
      destruct (decide (resp_risk_level resp = "CRITICAL")) as [-> | Hc'].
      * rewrite (bool_decide_eq_true_2 ("CRITICAL" = "CRITICAL")) by reflexivity.
        rewrite (bool_decide_eq_true_2 (_ = (MODEL_VERSION, "CRITICAL", "success")))
          by reflexivity.
        simpl. lia.
      * rewrite (bool_decide_eq_false_2 (resp_risk_level resp = "CRITICAL"))
          by exact Hc'.
        rewrite (bool_decide_eq_false_2 (_ = (MODEL_VERSION, "CRITICAL", "success")))
          by congruence.
        simpl. lia.
Qed.

(** *** Startup *)

(** X21. Before the model is loaded the liveness probe answers healthy
    with [model_loaded] false and the readiness probe refuses with 503;
    a successful [load_model] makes both report the model, and touches
    no counter, gauge, histogram or audit entry; a failed load yields no
    serving state at all. *)
Theorem load_model_makes_ready now loaded s0 :
  model s0 = None ->
  Service.readiness_check MODEL_VERSION ENVIRONMENT SERVICE_START_TIME now s0
  = HTTPException 503 "Model not loaded"
  /\ Service.status
       (Service.health_check MODEL_VERSION ENVIRONMENT SERVICE_START_TIME now s0)
     = "healthy"
  /\ Service.model_loaded
       (Service.health_check MODEL_VERSION ENVIRONMENT SERVICE_START_TIME now s0)
     = false
  /\ match Service.load_model loaded s0 with
     | None => loaded = None
     | Some s =>
         model s = loaded
         /\ (exists h,
               Service.readiness_check MODEL_VERSION ENVIRONMENT
                 SERVICE_START_TIME now s = returns h
               /\ Service.status h = "ready"
               /\ Service.model_loaded h = true)
         /\ Service.model_loaded
              (Service.health_check MODEL_VERSION ENVIRONMENT
                 SERVICE_START_TIME now s) = true
         /\ PREDICTION_COUNTER s = PREDICTION_COUNTER s0
         /\ PREDICTION_LATENCY s = PREDICTION_LATENCY s0
         /\ HIGH_RISK_TRANSACTIONS s = HIGH_RISK_TRANSACTIONS s0
         /\ audit_logs s = audit_logs s0
     end.
Proof.
  intros Hnone.
  unfold Service.readiness_check, Service.health_check, Service.load_model.
  rewrite Hnone. simpl.
  split; [reflexivity|]. split; [reflexivity|].
  split; [reflexivity|].
  destruct loaded as [m|]; [|reflexivity]. simpl.
  split; [reflexivity|].
  split; [eexists; repeat split; reflexivity|].
  repeat split; reflexivity.
Qed.


End ServiceInvariants.

(** ** The further properties at concrete inputs *)

Lemma accepted_features_within_bounds_witness :
  PyFloat.le (transaction_amount_usd Demo.valid_features) 1000000%float = true
  /\ 0 <= hour_of_day Demo.valid_features <= 23.
Proof.
  destruct (accepted_features_within_bounds Demo.features_input
              Demo.valid_features eq_refl)
    as (_ & _ & _ & _ & _ & _ & _ & _ & Ha & _ & _ & _ & _ & _ & Hh).
  split; assumption.
Defined.

Lemma within_bounds_features_accepted_witness :
  Validation.validate Demo.features_input = inr Demo.valid_features.
Proof.
  exact (within_bounds_features_accepted Demo.features_input
           eq_refl eq_refl ltac:(simpl; lia) ltac:(simpl; lia)
           eq_refl eq_refl eq_refl ltac:(simpl; lia)).
Defined.

Lemma accepted_feature_vector_has_no_nan_witness :
  PrimFloat.is_nan 0.9%float = false.
Proof.
  apply (accepted_feature_vector_has_no_nan Demo.features_input
           Demo.valid_features 0.9%float eq_refl).
  simpl. do 4 right. left. reflexivity.
Defined.


Lemma risk_level_monotone_witness :
  (Service.severity (fst (Service.risk_policy 0.3%float))
   <= Service.severity (fst (Service.risk_policy 0.85%float)))%nat.
Proof.
  exact (risk_level_monotone 0.3%float 0.85%float eq_refl).
Defined.

Lemma audit_entry_agrees_with_response_witness :
  exists s' r e,
    Service.score_transaction Demo.MODEL_VERSION Demo.ENVIRONMENT Demo.digest
      Demo.repr_float Demo.uuid4 Demo.clock Demo.later_request (Some "abc")
      (Demo.loaded (proba 0.85%float)) = (s', returns r)
    /\ audit_logs s' = [e]
    /\ audit_customer_id e = Some "cust-9"
    /\ audit_correlation_id e = resp_correlation_id r.
Proof.
  destruct (score_transaction_proba Demo.MODEL_VERSION Demo.ENVIRONMENT Demo.digest
              Demo.repr_float Demo.uuid4 Demo.clock Demo.later_request (Some "abc")
              (Demo.loaded (proba 0.85%float)) (fun _ => proba 0.85%float)
              0.85%float eq_refl eq_refl)
    as (s' & r & Hrun & _).
  destruct (audit_entry_agrees_with_response Demo.MODEL_VERSION Demo.ENVIRONMENT
              Demo.digest Demo.repr_float Demo.uuid4 Demo.clock Demo.later_request
              (Some "abc") (Demo.loaded (proba 0.85%float)) s' r Hrun)
    as (e & Ha & _ & _ & Hc & _ & _ & _ & _ & _ & Hid & _).
  exists s', r, e. repeat split; assumption.
Defined.

Lemma empty_correlation_header_is_replaced_in_body_witness :
  exists s' resp r,
    Service.add_correlation_id Demo.MODEL_VERSION Demo.ENVIRONMENT 0%float
      Demo.digest Demo.repr_float Demo.uuid4
      (Service.POST_score Demo.clock (Demo.body Demo.features_input))
      (Some EmptyString) (Demo.loaded (proba 0.85%float)) = (s', resp)
    /\ Service.content resp = Service.score_json r
    /\ Service.X_Correlation_ID resp = EmptyString
    /\ resp_correlation_id r = "uuid-1".
Proof.
  destruct (empty_correlation_header_is_replaced_in_body Demo.MODEL_VERSION
              Demo.ENVIRONMENT 0%float Demo.digest Demo.repr_float Demo.uuid4
              Demo.clock (Demo.body Demo.features_input) Demo.request
              (Demo.loaded (proba 0.85%float)) (fun _ => proba 0.85%float)
              0.85%float eq_refl eq_refl eq_refl)
    as (s' & resp & r & e & Hrun & Hcontent & Hheader & Hbody & _).
  exists s', resp, r. repeat split; assumption.
Defined.

Lemma unhandled_request_changes_nothing_witness :
  audit_logs
    (fst (Service.add_correlation_id Demo.MODEL_VERSION Demo.ENVIRONMENT 0%float
            Demo.digest Demo.repr_float Demo.uuid4 Service.GET_metrics None
            (Demo.logged [Demo.entry "T1"])))
  = [Demo.entry "T1"].
Proof.
  exact (proj2 (proj2 (proj2 (proj2
           (unhandled_request_changes_nothing Demo.MODEL_VERSION Demo.ENVIRONMENT
              0%float Demo.digest Demo.repr_float Demo.uuid4 Service.GET_metrics
              None (Demo.logged [Demo.entry "T1"]) eq_refl))))).
Defined.

Lemma audit_tail_outside_range_witness :
  Service.get_audit_logs 0
    (Demo.logged [Demo.entry "T1"; Demo.entry "T2"; Demo.entry "T3"])
  = (3%nat, [Demo.entry "T1"; Demo.entry "T2"; Demo.entry "T3"])
  /\ Service.get_audit_logs 100
       (Demo.logged [Demo.entry "T1"; Demo.entry "T2"; Demo.entry "T3"])
     = (3%nat, [Demo.entry "T1"; Demo.entry "T2"; Demo.entry "T3"]).
Proof.
  split.
  - exact (proj1 audit_tail_outside_range 0
             (Demo.logged [Demo.entry "T1"; Demo.entry "T2"; Demo.entry "T3"])
             ltac:(lia)).
  - exact (proj2 audit_tail_outside_range 100
             (Demo.logged [Demo.entry "T1"; Demo.entry "T2"; Demo.entry "T3"])
             ltac:(simpl; lia)).
Defined.

Lemma no_model_no_score_no_audit_witness :
  audit_logs
    (fst (Service.serve Demo.MODEL_VERSION Demo.ENVIRONMENT 0%float
            Demo.digest Demo.repr_float Demo.uuid4
            [(Service.POST_score Demo.clock (Demo.body Demo.features_input), None);
             (Service.GET_ready 1%float, None)]
            (Demo.logged [])))
  = [].
Proof.
  exact (proj1 (proj2
           (no_model_no_score_no_audit Demo.MODEL_VERSION Demo.ENVIRONMENT
              0%float Demo.digest Demo.repr_float Demo.uuid4
              [(Service.POST_score Demo.clock (Demo.body Demo.features_input), None);
               (Service.GET_ready 1%float, None)]
              (Demo.logged []) eq_refl))).
Defined.

Lemma gauge_matches_high_and_critical_counts_witness :
  let s' :=
    fst (Service.serve Demo.MODEL_VERSION Demo.ENVIRONMENT 0%float
           Demo.digest Demo.repr_float Demo.uuid4
           [(Service.POST_score Demo.clock (Demo.body Demo.features_input), None)]
           (Demo.loaded (proba 0.85%float))) in
  HIGH_RISK_TRANSACTIONS s'
  = Z.of_nat (value (PREDICTION_COUNTER s') (Demo.MODEL_VERSION, "HIGH", "success"))
    + Z.of_nat (value (PREDICTION_COUNTER s')
                  (Demo.MODEL_VERSION, "CRITICAL", "success")).
Proof.
  exact (gauge_matches_high_and_critical_counts Demo.MODEL_VERSION
           Demo.ENVIRONMENT 0%float Demo.digest Demo.repr_float Demo.uuid4
           [(Service.POST_score Demo.clock (Demo.body Demo.features_input), None)]
           (Demo.loaded (proba 0.85%float)) eq_refl).
Defined.

Lemma load_model_makes_ready_witness :
  Service.readiness_check Demo.MODEL_VERSION Demo.ENVIRONMENT 0%float 1%float
    (Service.initial_state)
  = HTTPException 503 "Model not loaded".
Proof.
  exact (proj1 (load_model_makes_ready Demo.MODEL_VERSION Demo.ENVIRONMENT
                  0%float 1%float (Some (fun _ => proba 0.85%float))
                  Service.initial_state eq_refl)).
Defined.
